(** * EDmin backend: schema registry, HTTP surface and diagnostics

    A shallow embedding of [src/schemas.py] (the entity declarations) and of
    [src/main.py] (the routes, the list handlers' filters, the diagnostic
    handler and the schema exposure), with the properties the specification
    states about them.

    Conventions.
    - A Python [str] is a [string]; one [ascii] stands for one character of
      an exception message or of a query parameter, and a literal of the
      source is kept as it is written there.
    - A JSON value (a request body, a stored field) is a [value].
    - A Python [dict] with string keys is a [gmap string _]; a dict literal
      is kept as the list of its items, in source order, next to the map it
      denotes.
    - Code that can raise returns a [result]. *)

From Stdlib Require Import QArith Qcanon.
From stdpp Require Import gmap strings list fin_maps.

Set Warnings "-register-all".

(* ===================================================================== *)
(** * Strings *)
(* ===================================================================== *)

(** [str.lower()] on the characters A-Z; every other character is kept.
    The class names of [schemas.py] are ASCII. *)
Definition lower_char (c : Ascii.ascii) : Ascii.ascii :=
  let n := Ascii.nat_of_ascii c in
  if (65 <=? n)%nat && (n <=? 90)%nat then Ascii.ascii_of_nat (n + 32) else c.

Fixpoint lower (s : string) : string :=
  match s with
  | EmptyString => EmptyString
  | String c s' => String (lower_char c) (lower s')
  end.

(** [s[:n]]: the first [n] characters of [s], all of [s] when it is shorter. *)
Fixpoint str_take (n : nat) (s : string) : string :=
  match n, s with
  | S n', String c s' => String c (str_take n' s')
  | _, _ => EmptyString
  end.

(** Truthiness of an [Optional[str]]: [None] and the empty string are false. *)
Definition truthy (o : option string) : bool :=
  match o with
  | Some (String _ _) => true
  | _ => false
  end.

(* ===================================================================== *)
(** * Values, results *)
(* ===================================================================== *)

(** JSON values, plus the identifier the store issues ([VOid], an ObjectId
    given by its hexadecimal text). *)
Inductive value : Type :=
  | VNull
  | VBool (b : bool)
  | VNum (q : Qc)
  | VStr (s : string)
  | VOid (hex : string)
  | VList (l : list value)
  | VDict (l : list (string * value)).

Fixpoint value_eqb (v w : value) {struct v} : bool :=
  match v, w with
  | VNull, VNull => true
  | VBool a, VBool b => bool_decide (a = b)
  | VNum p, VNum q => bool_decide (p = q)
  | VStr s, VStr t => bool_decide (s = t)
  | VOid s, VOid t => bool_decide (s = t)
  | VList l, VList m =>
      (fix go (l m : list value) {struct l} : bool :=
         match l, m with
         | [], [] => true
         | x :: l', y :: m' => value_eqb x y && go l' m'
         | _, _ => false
         end) l m
  | VDict l, VDict m =>
      (fix go (l m : list (string * value)) {struct l} : bool :=
         match l, m with
         | [], [] => true
         | (j, x) :: l', (k, y) :: m' =>
             bool_decide (j = k) && value_eqb x y && go l' m'
         | _, _ => false
         end) l m
  | _, _ => false
  end.

(** The scalar values of JSON: [null], a boolean, a number, a string. *)
Definition is_scalar (v : value) : bool :=
  match v with
  | VNull | VBool _ | VNum _ | VStr _ => true
  | VOid _ | VList _ | VDict _ => false
  end.

(** The outcome of code that can raise: a value, or the exception. *)
Inductive result (E A : Type) : Type :=
  | Ok (a : A)
  | Raise (e : E).
Arguments Ok {E A} a.
Arguments Raise {E A} e.

Definition is_ok {E A} (m : result E A) : bool :=
  match m with Ok _ => true | Raise _ => false end.

(* ===================================================================== *)
(** * schemas.py: the entity kinds *)
(* ===================================================================== *)

(** The eighteen model classes, in the order [main.py] imports them.
    [Class'] is the class [Class]. *)
Inductive kind : Type :=
  | Tenant | User | Teacher | Parent | Student | Class' | Enrollment
  | Attendance | GradeRecord | Invoice | Payment | Announcement
  | Notification | Resource | Assignment | Quiz | QuizSubmission
  | ActivityLog.

Definition registered_kinds : list kind :=
  [ Tenant; User; Teacher; Parent; Student; Class'; Enrollment; Attendance;
    GradeRecord; Invoice; Payment; Announcement; Notification; Resource;
    Assignment; Quiz; QuizSubmission; ActivityLog ].

#[global] Instance kind_eq_dec : EqDecision kind.
Proof. solve_decision. Defined.

(** [cls.__name__] *)
Definition name (k : kind) : string :=
  match k with
  | Tenant => "Tenant"
  | User => "User"
  | Teacher => "Teacher"
  | Parent => "Parent"
  | Student => "Student"
  | Class' => "Class"
  | Enrollment => "Enrollment"
  | Attendance => "Attendance"
  | GradeRecord => "GradeRecord"
  | Invoice => "Invoice"
  | Payment => "Payment"
  | Announcement => "Announcement"
  | Notification => "Notification"
  | Resource => "Resource"
  | Assignment => "Assignment"
  | Quiz => "Quiz"
  | QuizSubmission => "QuizSubmission"
  | ActivityLog => "ActivityLog"
  end.

(** The annotation of a field. *)
Inductive ftype : Type :=
  | TStr                      (* str *)
  | TEmailStr                 (* EmailStr *)
  | TBool                     (* bool *)
  | TFloat                    (* float *)
  | TDate                     (* date *)
  | TDateTime                 (* datetime *)
  | TAny                      (* Any *)
  | TList (t : ftype)         (* List[t] *)
  | TDict (t : ftype)         (* Dict[str, t] *)
  | TOptional (t : ftype).    (* Optional[t] *)

(** What stands to the right of a field's [=]: nothing or [Field(...)]
    (required), a default value, or a [default_factory] given by the value
    it builds. *)
Inductive fdefault : Type :=
  | Required
  | Default (v : value)
  | DefaultFactory (v : value).

Record field : Type := Field {
  fname : string;
  ftyp : ftype;
  fdef : fdefault;
  description : option string
}.

Definition VStrs (l : list string) : value := VList (VStr <$> l).

Definition Tenant_fields : list field :=
  [ Field "name" TStr Required (Some "Institution name");
    Field "code" TStr Required (Some "Unique short code for the institution");
    Field "address" (TOptional TStr) (Default VNull) (Some "Institution address");
    Field "contact_email" (TOptional TEmailStr) (Default VNull) (Some "Primary contact email");
    Field "contact_phone" (TOptional TStr) (Default VNull) (Some "Primary contact phone");
    Field "timezone" (TOptional TStr) (Default (VStr "UTC")) (Some "Institution timezone");
    Field "status" TStr (Default (VStr "active")) (Some "active | suspended | archived") ].

Definition User_fields : list field :=
  [ Field "tenant_id" TStr Required (Some "Related tenant (institution)");
    Field "name" TStr Required None;
    Field "email" TEmailStr Required None;
    Field "role" TStr Required (Some "admin | teacher | student | parent | district_admin");
    Field "password_hash" (TOptional TStr) (Default VNull) (Some "Hash only; never store plain text");
    Field "is_active" TBool (Default (VBool true)) None ].

Definition Teacher_fields : list field :=
  [ Field "tenant_id" TStr Required None;
    Field "user_id" (TOptional TStr) (Default VNull) (Some "User account ID if linked");
    Field "employee_id" (TOptional TStr) (Default VNull) None;
    Field "subjects" (TList TStr) (Default (VList [])) None;
    Field "hire_date" (TOptional TDate) (Default VNull) None;
    Field "status" TStr (Default (VStr "active")) None ].

Definition Parent_fields : list field :=
  [ Field "tenant_id" TStr Required None;
    Field "user_id" (TOptional TStr) (Default VNull) None;
    Field "children_ids" (TList TStr) (Default (VList [])) None ].

Definition Student_fields : list field :=
  [ Field "tenant_id" TStr Required None;
    Field "user_id" (TOptional TStr) (Default VNull) None;
    Field "student_number" TStr Required None;
    Field "first_name" TStr Required None;
    Field "last_name" TStr Required None;
    Field "grade_level" TStr Required None;
    Field "dob" (TOptional TDate) (Default VNull) None;
    Field "guardian_contact" (TOptional TStr) (Default VNull) None;
    Field "address" (TOptional TStr) (Default VNull) None;
    Field "status" TStr (Default (VStr "active")) None ].

Definition Class_fields : list field :=
  [ Field "tenant_id" TStr Required None;
    Field "name" TStr Required None;
    Field "code" TStr Required None;
    Field "subject" TStr Required None;
    Field "grade_level" TStr Required None;
    Field "teacher_id" (TOptional TStr) (Default VNull) None;
    Field "schedule" (TDict TAny) (DefaultFactory (VDict [])) (Some "Timetable/schedule data") ].

Definition Enrollment_fields : list field :=
  [ Field "tenant_id" TStr Required None;
    Field "class_id" TStr Required None;
    Field "student_id" TStr Required None;
    Field "enrollment_date" (TOptional TDate) (Default VNull) None;
    Field "status" TStr (Default (VStr "enrolled")) None ].

Definition Attendance_fields : list field :=
  [ Field "tenant_id" TStr Required None;
    Field "class_id" TStr Required None;
    Field "student_id" TStr Required None;
    Field "date" TDate Required None;
    Field "status" TStr Required (Some "present | absent | late | excused");
    Field "method" (TOptional TStr) (Default VNull) (Some "manual | biometric | rfid") ].

Definition GradeRecord_fields : list field :=
  [ Field "tenant_id" TStr Required None;
    Field "student_id" TStr Required None;
    Field "class_id" TStr Required None;
    Field "term" TStr Required None;
    Field "scores" (TDict TFloat) (DefaultFactory (VDict []))
      (Some "e.g., { 'midterm': 88, 'final': 92 }");
    Field "remarks" (TOptional TStr) (Default VNull) None ].

Definition Invoice_fields : list field :=
  [ Field "tenant_id" TStr Required None;
    Field "student_id" TStr Required None;
    Field "title" TStr Required None;
    Field "amount" TFloat Required None;
    Field "due_date" (TOptional TDate) (Default VNull) None;
    Field "status" TStr (Default (VStr "unpaid")) (Some "unpaid | paid | overdue | cancelled");
    Field "meta" (TDict TAny) (DefaultFactory (VDict [])) None ].

Definition Payment_fields : list field :=
  [ Field "tenant_id" TStr Required None;
    Field "invoice_id" TStr Required None;
    Field "method" TStr Required (Some "stripe | upi | card | netbanking | paypal | cash");
    Field "amount" TFloat Required None;
    Field "reference" (TOptional TStr) (Default VNull) None;
    Field "status" TStr (Default (VStr "success")) (Some "success | failed | pending") ].

Definition Announcement_fields : list field :=
  [ Field "tenant_id" TStr Required None;
    Field "title" TStr Required None;
    Field "message" TStr Required None;
    Field "audience" (TList TStr)
      (DefaultFactory (VStrs ["students"; "teachers"; "parents"])) None;
    Field "starts_at" (TOptional TDateTime) (Default VNull) None;
    Field "ends_at" (TOptional TDateTime) (Default VNull) None ].

Definition Notification_fields : list field :=
  [ Field "tenant_id" TStr Required None;
    Field "user_id" TStr Required None;
    Field "title" TStr Required None;
    Field "message" TStr Required None;
    Field "type" TStr (Default (VStr "info")) (Some "info | success | warning | error");
    Field "is_read" TBool (Default (VBool false)) None ].

Definition Resource_fields : list field :=
  [ Field "tenant_id" TStr Required None;
    Field "title" TStr Required None;
    Field "subject" TStr Required None;
    Field "grade_level" TStr Required None;
    Field "difficulty" (TOptional TStr) (Default VNull) None;
    Field "url" (TOptional TStr) (Default VNull) None;
    Field "tags" (TList TStr) (Default (VList [])) None ].

Definition Assignment_fields : list field :=
  [ Field "tenant_id" TStr Required None;
    Field "class_id" TStr Required None;
    Field "title" TStr Required None;
    Field "description" (TOptional TStr) (Default VNull) None;
    Field "due_date" (TOptional TDateTime) (Default VNull) None ].

Definition Quiz_fields : list field :=
  [ Field "tenant_id" TStr Required None;
    Field "class_id" TStr Required None;
    Field "title" TStr Required None;
    Field "questions" (TList (TDict TAny)) (DefaultFactory (VList []))
      (Some "Array of questions with options/answers") ].

Definition QuizSubmission_fields : list field :=
  [ Field "tenant_id" TStr Required None;
    Field "quiz_id" TStr Required None;
    Field "student_id" TStr Required None;
    Field "answers" (TList TAny) (Default (VList [])) None;
    Field "score" (TOptional TFloat) (Default VNull) None ].

Definition ActivityLog_fields : list field :=
  [ Field "tenant_id" TStr Required None;
    Field "user_id" (TOptional TStr) (Default VNull) None;
    Field "action" TStr Required None;
    Field "entity" TStr Required None;
    Field "entity_id" (TOptional TStr) (Default VNull) None;
    Field "meta" (TDict TAny) (DefaultFactory (VDict [])) None ].

(** [cls.model_fields], in declaration order. *)
Definition fields (k : kind) : list field :=
  match k with
  | Tenant => Tenant_fields
  | User => User_fields
  | Teacher => Teacher_fields
  | Parent => Parent_fields
  | Student => Student_fields
  | Class' => Class_fields
  | Enrollment => Enrollment_fields
  | Attendance => Attendance_fields
  | GradeRecord => GradeRecord_fields
  | Invoice => Invoice_fields
  | Payment => Payment_fields
  | Announcement => Announcement_fields
  | Notification => Notification_fields
  | Resource => Resource_fields
  | Assignment => Assignment_fields
  | Quiz => Quiz_fields
  | QuizSubmission => QuizSubmission_fields
  | ActivityLog => ActivityLog_fields
  end.

Definition field_names (k : kind) : list string := fname <$> fields k.

Definition declares (k : kind) (f : string) : bool :=
  bool_decide (f ∈ field_names k).

Definition is_required (fd : field) : bool :=
  match fdef fd with Required => true | _ => false end.

(** The fields declared with no default. *)
Definition required_fields (k : kind) : list string :=
  fname <$> filter (λ fd, is_required fd = true) (fields k).

(* ===================================================================== *)
(** * Validation of a request body against a model class *)
(* ===================================================================== *)

(** One entry of a validation error: the field it is about, and whether
    the field is absent or holds a value of the wrong type. *)
Inductive error_type : Type := missing | invalid.

Record error_detail : Type := ErrorDetail {
  loc : string;
  type_ : error_type
}.

#[global] Instance error_type_eq_dec : EqDecision error_type.
Proof. solve_decision. Defined.

#[global] Instance error_detail_eq_dec : EqDecision error_detail.
Proof. solve_decision. Defined.

(** The primitive annotations whose parsing is the validation library's
    own (e-mail syntax, ISO dates, numeric strings, truth words). *)
Inductive prim : Type := PEmailStr | PBool | PFloat | PDate | PDateTime.

Section Validation.

(** The library's conversion of a raw value to a primitive type: [Some] of
    the converted value, or [None] when the value is refused. Every result
    below holds whatever this conversion is. *)
Variable coerce : prim → value → option value.

(** A value against an annotation. A [str] field takes a string and
    nothing else; [Optional[t]] also takes [null]; containers validate
    their elements; [Any] takes everything. *)
Fixpoint validate_value (t : ftype) (v : value) : option value :=
  match t with
  | TStr => match v with VStr _ => Some v | _ => None end
  | TEmailStr => coerce PEmailStr v
  | TBool => coerce PBool v
  | TFloat => coerce PFloat v
  | TDate => coerce PDate v
  | TDateTime => coerce PDateTime v
  | TAny => Some v
  | TList t' =>
      match v with
      | VList l => VList <$> mapM (validate_value t') l
      | _ => None
      end
  | TDict t' =>
      match v with
      | VDict l =>
          VDict <$> mapM (λ kx, (λ y, (kx.1, y)) <$> validate_value t' kx.2) l
      | _ => None
      end
  | TOptional t' =>
      match v with
      | VNull => Some VNull
      | _ => validate_value t' v
      end
  end.

(** One field of the class against the raw mapping: the validated (or
    defaulted) value, or the error entry. A default is taken as it is.
    The entry stands for the field: where the library reports a refused
    list or dict field with one entry per refused element (the element's
    index or key after the field's name), this keeps the one entry of the
    field, so it tells which fields are refused and why, not how many
    entries the library's report has. *)
Definition validate_field (raw : gmap string value) (fd : field)
  : error_detail + (string * value) :=
  match raw !! fname fd with
  | Some v =>
      match validate_value (ftyp fd) v with
      | Some v' => inr (fname fd, v')
      | None => inl (ErrorDetail (fname fd) invalid)
      end
  | None =>
      match fdef fd with
      | Required => inl (ErrorDetail (fname fd) missing)
      | Default v | DefaultFactory v => inr (fname fd, v)
      end
  end.

Definition errors_of (k : kind) (raw : gmap string value) : list error_detail :=
  omap (λ r, match r with inl e => Some e | inr _ => None end)
       (validate_field raw <$> fields k).

Definition values_of (k : kind) (raw : gmap string value) : list (string * value) :=
  omap (λ r, match r with inl _ => None | inr x => Some x end)
       (validate_field raw <$> fields k).

(** [K.model_validate(raw)]: every declared field is looked at, keys of
    [raw] that name no field are ignored, and all the errors are gathered
    in one [ValidationError]; with no error, the record has every declared
    field, in declaration order. *)
Definition validate (k : kind) (raw : gmap string value)
  : result (list error_detail) (list (string * value)) :=
  match errors_of k raw with
  | [] => Ok (values_of k raw)
  | errors => Raise errors
  end.

End Validation.

(** The fields the specification calls free-text enums. *)
Definition free_text_fields : list string := ["status"; "role"; "method"; "type"].

(** The annotations that take every string: [str] and [Optional[str]]. *)
Definition is_str_like (t : ftype) : bool :=
  match t with
  | TStr | TOptional TStr => true
  | _ => false
  end.

(* ===================================================================== *)
(** * The document store and the persistence gateway *)
(* ===================================================================== *)

(** A stored document: the identifier the store issued for it, and the
    fields it was inserted with. *)
Record document : Type := Document {
  doc_oid : string;
  doc_body : gmap string value
}.

(** What [hasattr(db, 'name')] followed by [db.name] can do. *)
Inductive getattr_outcome : Type :=
  | HasAttr (v : string)
  | NoAttr
  | AttrRaises (msg : string).

(** The store handle [db], as the code of [main.py] and the gateway use
    it: its [name] attribute, the failure every call to the store raises
    when the connection is lost (its message), and the collections. *)
Record store_handle : Type := StoreHandle {
  db_name : getattr_outcome;
  db_fault : option string;
  db_collections : gmap string (list document)
}.

(** [db.list_collection_names()] *)
Definition list_collection_names (d : store_handle) : result string (list string) :=
  match db_fault d with
  | Some msg => Raise msg
  | None => Ok ((map_to_list (db_collections d)).*1)
  end.

(** The name of the store's internal identifier field, and of the public
    field that replaces it. *)
Definition internal_id : string := "_id".
Definition public_id : string := "id".

(** The document as the store holds it: its fields and the identifier
    under [internal_id]. *)
Definition stored (d : document) : gmap string value :=
  <[internal_id := VOid (doc_oid d)]> (doc_body d).

(** Modelled from the spec: the filter of [get_documents] (the module
    [database] is not among the sources). A filter maps a field name to the
    expected value, and a document matches when it holds exactly that value
    under every key of the filter; no ranges, patterns or combinators. *)
Definition matches (F : gmap string value) (d : document) : bool :=
  forallb (λ kv, match stored d !! kv.1 with
                 | Some w => value_eqb w kv.2
                 | None => false
                 end)
          (map_to_list F).

(** Modelled from the spec: the public shape of a returned record (the
    module [database] is not among the sources): the internal identifier
    field is removed and the identifier is given as a string under [id]. *)
Definition public_record (d : document) : gmap string value :=
  <[public_id := VStr (doc_oid d)]> (delete internal_id (stored d)).

Inductive gateway_error : Type :=
  | StorageUnavailableError
  | PersistenceError (msg : string).

(** Modelled from the spec: [get_documents(collection_name, filter)] (the
    module [database] is not among the sources). With no store connection
    it fails with [StorageUnavailableError], a failed read is a
    [PersistenceError]; otherwise it returns every document of the
    collection that matches the filter, in the store's order and in the
    public shape. A collection that does not exist holds no document. *)
Definition get_documents (db : option store_handle) (collection : string)
    (F : gmap string value)
  : result gateway_error (list (gmap string value)) :=
  match db with
  | None => Raise StorageUnavailableError
  | Some d =>
      match db_fault d with
      | Some msg => Raise (PersistenceError msg)
      | None =>
          Ok (public_record <$>
                List.filter (matches F) (default [] (db_collections d !! collection)))
      end
  end.

(* ===================================================================== *)
(** * main.py: collection names and handlers *)
(* ===================================================================== *)

(** [collection_name(model_cls)]: [model_cls.__name__.lower()] *)
Definition collection_name (model_cls : kind) : string := lower (name model_cls).

(** What a handler asks of the gateway. The handlers of [main.py] are
    embedded up to this call, whose arguments are all they compute. *)
Inductive gateway_call : Type :=
  | CreateDocument (collection : string) (payload : kind)
  | GetDocuments (collection : string) (filt : gmap string value).

Definition call_collection (c : gateway_call) : string :=
  match c with
  | CreateDocument collection _ | GetDocuments collection _ => collection
  end.

Definition call_filter (c : gateway_call) : gmap string value :=
  match c with
  | CreateDocument _ _ => ∅
  | GetDocuments _ filt => filt
  end.

(** [if arg: filt[key] = arg], and [{key: arg} if arg else {}] when [filt]
    is the empty dict. *)
Definition set_if (key : string) (arg : option string) (filt : gmap string value)
  : gmap string value :=
  match arg with
  | Some s => if truthy arg then <[key := VStr s]> filt else filt
  | None => filt
  end.

(** [get_documents(collection_name(Tenant))]: the call gives no filter,
    which the gateway reads as the empty one. *)
Definition list_tenants : gateway_call :=
  GetDocuments (collection_name Tenant) ∅.

Definition list_users (tenant_id : option string) : gateway_call :=
  let filt := set_if "tenant_id" tenant_id ∅ in
  GetDocuments (collection_name User) filt.

Definition list_students (tenant_id grade_level : option string) : gateway_call :=
  let filt := ∅ in
  let filt := set_if "tenant_id" tenant_id filt in
  let filt := set_if "grade_level" grade_level filt in
  GetDocuments (collection_name Student) filt.

Definition list_classes (tenant_id : option string) : gateway_call :=
  let filt := set_if "tenant_id" tenant_id ∅ in
  GetDocuments (collection_name Class') filt.

Definition list_enrollments (tenant_id class_id student_id : option string)
  : gateway_call :=
  let filt := ∅ in
  let filt := set_if "tenant_id" tenant_id filt in
  let filt := set_if "class_id" class_id filt in
  let filt := set_if "student_id" student_id filt in
  GetDocuments (collection_name Enrollment) filt.

Definition list_attendance (tenant_id class_id student_id date : option string)
  : gateway_call :=
  let filt := ∅ in
  let filt := set_if "tenant_id" tenant_id filt in
  let filt := set_if "class_id" class_id filt in
  let filt := set_if "student_id" student_id filt in
  let filt := set_if "date" date filt in
  GetDocuments (collection_name Attendance) filt.

Definition list_grades (tenant_id student_id class_id term : option string)
  : gateway_call :=
  let filt := ∅ in
  let filt := set_if "tenant_id" tenant_id filt in
  let filt := set_if "student_id" student_id filt in
  let filt := set_if "class_id" class_id filt in
  let filt := set_if "term" term filt in
  GetDocuments (collection_name GradeRecord) filt.

Definition list_invoices (tenant_id student_id status : option string)
  : gateway_call :=
  let filt := ∅ in
  let filt := set_if "tenant_id" tenant_id filt in
  let filt := set_if "student_id" student_id filt in
  let filt := set_if "status" status filt in
  GetDocuments (collection_name Invoice) filt.

Definition list_payments (tenant_id invoice_id status : option string)
  : gateway_call :=
  let filt := ∅ in
  let filt := set_if "tenant_id" tenant_id filt in
  let filt := set_if "invoice_id" invoice_id filt in
  let filt := set_if "status" status filt in
  GetDocuments (collection_name Payment) filt.

Definition list_announcements (tenant_id : option string) : gateway_call :=
  let filt := set_if "tenant_id" tenant_id ∅ in
  GetDocuments (collection_name Announcement) filt.

Definition list_resources (tenant_id subject grade_level : option string)
  : gateway_call :=
  let filt := ∅ in
  let filt := set_if "tenant_id" tenant_id filt in
  let filt := set_if "subject" subject filt in
  let filt := set_if "grade_level" grade_level filt in
  GetDocuments (collection_name Resource) filt.

Definition list_assignments (tenant_id class_id : option string) : gateway_call :=
  let filt := ∅ in
  let filt := set_if "tenant_id" tenant_id filt in
  let filt := set_if "class_id" class_id filt in
  GetDocuments (collection_name Assignment) filt.

Definition list_quizzes (tenant_id class_id : option string) : gateway_call :=
  let filt := ∅ in
  let filt := set_if "tenant_id" tenant_id filt in
  let filt := set_if "class_id" class_id filt in
  GetDocuments (collection_name Quiz) filt.

Definition list_quiz_submissions (tenant_id quiz_id student_id : option string)
  : gateway_call :=
  let filt := ∅ in
  let filt := set_if "tenant_id" tenant_id filt in
  let filt := set_if "quiz_id" quiz_id filt in
  let filt := set_if "student_id" student_id filt in
  GetDocuments (collection_name QuizSubmission) filt.

Definition list_activity (tenant_id user_id action : option string)
  : gateway_call :=
  let filt := ∅ in
  let filt := set_if "tenant_id" tenant_id filt in
  let filt := set_if "user_id" user_id filt in
  let filt := set_if "action" action filt in
  GetDocuments (collection_name ActivityLog) filt.

(** Every create handler: [create_document(collection_name(K), payload)]
    with [payload : K]. *)
Definition create (K : kind) : gateway_call :=
  CreateDocument (collection_name K) K.

(* ===================================================================== *)
(** * main.py: the routes *)
(* ===================================================================== *)

Inductive http_method : Type := GET | POST.

#[global] Instance http_method_eq_dec : EqDecision http_method.
Proof. solve_decision. Defined.

(** What a route's handler does. A list handler takes the query string
    (parameter name to text); the framework binds each of the handler's
    parameters to the query parameter of its name, [None] when absent. *)
Inductive handler : Type :=
  | Diagnostic
  | Create (K : kind)
  | List (K : kind) (h : gmap string string → gateway_call)
  | Schema.

Record route : Type := Route {
  r_method : http_method;
  r_path : string;
  r_endpoint : string;
  r_handler : handler
}.

(** The decorators of [main.py], in source order. *)
Definition routes : list route :=
  [ Route GET "/" "read_root" Diagnostic;
    Route GET "/test" "test_database" Diagnostic;
    Route POST "/tenants" "create_tenant" (Create Tenant);
    Route GET "/tenants" "list_tenants" (List Tenant (λ q, list_tenants));
    Route POST "/users" "create_user" (Create User);
    Route GET "/users" "list_users"
      (List User (λ q, list_users (q !! "tenant_id")));
    Route POST "/students" "create_student" (Create Student);
    Route GET "/students" "list_students"
      (List Student (λ q, list_students (q !! "tenant_id") (q !! "grade_level")));
    Route POST "/classes" "create_class" (Create Class');
    Route GET "/classes" "list_classes"
      (List Class' (λ q, list_classes (q !! "tenant_id")));
    Route POST "/enrollments" "create_enrollment" (Create Enrollment);
    Route GET "/enrollments" "list_enrollments"
      (List Enrollment (λ q, list_enrollments (q !! "tenant_id") (q !! "class_id")
                               (q !! "student_id")));
    Route POST "/attendance" "mark_attendance" (Create Attendance);
    Route GET "/attendance" "list_attendance"
      (List Attendance (λ q, list_attendance (q !! "tenant_id") (q !! "class_id")
                               (q !! "student_id") (q !! "date")));
    Route POST "/grades" "create_grade" (Create GradeRecord);
    Route GET "/grades" "list_grades"
      (List GradeRecord (λ q, list_grades (q !! "tenant_id") (q !! "student_id")
                                (q !! "class_id") (q !! "term")));
    Route POST "/invoices" "create_invoice" (Create Invoice);
    Route GET "/invoices" "list_invoices"
      (List Invoice (λ q, list_invoices (q !! "tenant_id") (q !! "student_id")
                            (q !! "status")));
    Route POST "/payments" "create_payment" (Create Payment);
    Route GET "/payments" "list_payments"
      (List Payment (λ q, list_payments (q !! "tenant_id") (q !! "invoice_id")
                            (q !! "status")));
    Route POST "/announcements" "create_announcement" (Create Announcement);
    Route GET "/announcements" "list_announcements"
      (List Announcement (λ q, list_announcements (q !! "tenant_id")));
    Route POST "/resources" "create_resource" (Create Resource);
    Route GET "/resources" "list_resources"
      (List Resource (λ q, list_resources (q !! "tenant_id") (q !! "subject")
                             (q !! "grade_level")));
    Route POST "/assignments" "create_assignment" (Create Assignment);
    Route GET "/assignments" "list_assignments"
      (List Assignment (λ q, list_assignments (q !! "tenant_id") (q !! "class_id")));
    Route POST "/quizzes" "create_quiz" (Create Quiz);
    Route GET "/quizzes" "list_quizzes"
      (List Quiz (λ q, list_quizzes (q !! "tenant_id") (q !! "class_id")));
    Route POST "/quiz-submissions" "create_quiz_submission" (Create QuizSubmission);
    Route GET "/quiz-submissions" "list_quiz_submissions"
      (List QuizSubmission (λ q, list_quiz_submissions (q !! "tenant_id")
                                   (q !! "quiz_id") (q !! "student_id")));
    Route POST "/activity" "track_activity" (Create ActivityLog);
    Route GET "/activity" "list_activity"
      (List ActivityLog (λ q, list_activity (q !! "tenant_id") (q !! "user_id")
                                (q !! "action")));
    Route GET "/schema" "get_schema" Schema ].

(** The gateway call a handler makes on a request with query string
    [q]; the diagnostic and schema handlers make none. *)
Definition handler_call (h : handler) (q : gmap string string)
  : option gateway_call :=
  match h with
  | Create K => Some (create K)
  | List _ list_K => Some (list_K q)
  | Diagnostic | Schema => None
  end.

(** The model class a route creates or lists, if it does either. *)
Definition route_kind (r : route) : option kind :=
  match r_handler r with
  | Create K | List K _ => Some K
  | Diagnostic | Schema => None
  end.

(** Is there a route with method [m] whose handler creates (POST) or
    lists (GET) documents of kind [K]? *)
Definition has_route (m : http_method) (K : kind) : bool :=
  existsb (λ r, bool_decide (r_method r = m) && bool_decide (route_kind r = Some K))
          routes.

(** The list handlers, each with the kind it lists. *)
Definition list_handlers : list (kind * (gmap string string → gateway_call)) :=
  omap (λ r, match r_handler r with List K h => Some (K, h) | _ => None end) routes.

(** The gateway call of a list handler, run against the store. *)
Definition run_list (db : option store_handle) (c : gateway_call)
  : result gateway_error (list (gmap string value)) :=
  get_documents db (call_collection c) (call_filter c).

(* ===================================================================== *)
(** * main.py: GET /test *)
(* ===================================================================== *)

(** The dict [response] of [test_database]. [None] is Python's [None]. *)
Record response : Type := Response {
  backend : string;
  database : string;
  database_url : option string;
  database_name : option string;
  connection_status : string;
  collections : list string
}.

(** Statements of the handler: they update [response] in place and may
    raise; an update made before a raise stays. The exception is given by
    its [str(e)]. *)
Definition stmt (A : Type) : Type := response → response * result string A.

Definition ret {A} (a : A) : stmt A := λ r, (r, Ok a).

Definition seq {A B} (s : stmt A) (k : A → stmt B) : stmt B :=
  λ r, match s r with
       | (r', Ok a) => k a r'
       | (r', Raise e) => (r', Raise e)
       end.

(** A call of the store, which leaves [response] alone. *)
Definition call {A} (c : result string A) : stmt A := λ r, (r, c).

(** [try: body  except Exception as e: handler] *)
Definition try_ {A} (body : stmt A) (handler : string → stmt A) : stmt A :=
  λ r, match body r with
       | (r', Ok a) => (r', Ok a)
       | (r', Raise e) => handler e r'
       end.

#[global] Instance stmt_ret : MRet stmt := @ret.
#[global] Instance stmt_bind : MBind stmt := λ A B k s, seq s k.

(** [return response] *)
Definition return_response : stmt response := λ r, (r, Ok r).

Definition set_database (v : string) : stmt unit :=
  λ r, (Response (backend r) v (database_url r) (database_name r)
                 (connection_status r) (collections r), Ok ()).
Definition set_database_url (v : string) : stmt unit :=
  λ r, (Response (backend r) (database r) (Some v) (database_name r)
                 (connection_status r) (collections r), Ok ()).
Definition set_database_name (v : string) : stmt unit :=
  λ r, (Response (backend r) (database r) (database_url r) (Some v)
                 (connection_status r) (collections r), Ok ()).
Definition set_connection_status (v : string) : stmt unit :=
  λ r, (Response (backend r) (database r) (database_url r) (database_name r)
                 v (collections r), Ok ()).
Definition set_collections (v : list string) : stmt unit :=
  λ r, (Response (backend r) (database r) (database_url r) (database_name r)
                 (connection_status r) v, Ok ()).

(** [db.name if hasattr(db, 'name') else "✅ Connected"] *)
Definition name_or_connected (d : store_handle) : result string string :=
  match db_name d with
  | HasAttr v => Ok v
  | NoAttr => Ok "✅ Connected"
  | AttrRaises msg => Raise msg
  end.

(** [os.getenv(key)] over the process environment. *)
Definition getenv (environ : gmap string string) (key : string) : option string :=
  environ !! key.

Definition initial_response : response :=
  Response "✅ Running" "❌ Not Available" None None "Not Connected" [].

Definition test_database_body (environ : gmap string string) (db : option store_handle)
  : stmt response :=
  try_
    (match db with
     | Some d =>
         set_database "✅ Available" ;;
         set_database_url "✅ Configured" ;;
         n ← call (name_or_connected d) ;
         set_database_name n ;;
         set_connection_status "Connected" ;;
         try_
           (colls ← call (list_collection_names d) ;
            set_collections (take 20 colls) ;;
            set_database "✅ Connected & Working")
           (λ e, set_database ("⚠️  Connected but Error: " +:+ str_take 50 e))
     | None =>
         set_database "⚠️  Available but not initialized"
     end)
    (λ e, set_database ("❌ Error: " +:+ str_take 50 e)) ;;
  set_database_url
    (if truthy (getenv environ "DATABASE_URL") then "✅ Set" else "❌ Not Set") ;;
  set_database_name
    (if truthy (getenv environ "DATABASE_NAME") then "✅ Set" else "❌ Not Set") ;;
  return_response.

(** The handler: what it returns, or the exception that leaves it. *)
Definition test_database (environ : gmap string string) (db : option store_handle)
  : result string response :=
  (test_database_body environ db initial_response).2.

(** The status of the HTTP response: 200 when the handler returns, 500
    when an exception leaves it. *)
Definition http_status {E A} (outcome : result E A) : nat :=
  match outcome with
  | Ok _ => 200
  | Raise _ => 500
  end.

(* ===================================================================== *)
(** * main.py: GET /schema *)
(* ===================================================================== *)

(** [K.model_json_schema()], kept at the level of what the library
    generates it from: the class name as title, an object type, one
    property per declared field (annotation, default and description), and
    the names of the required fields. *)
Record json_schema : Type := JsonSchema {
  js_title : string;
  js_type : string;
  js_properties : list (string * field);
  js_required : list string
}.

Definition model_json_schema (K : kind) : json_schema :=
  JsonSchema (name K) "object" ((λ fd, (fname fd, fd)) <$> fields K)
             (required_fields K).

(** The items of the dict literal [get_schema] returns, in source order. *)
Definition get_schema_items : list (string * json_schema) :=
  [ ("tenant", model_json_schema Tenant);
    ("user", model_json_schema User);
    ("teacher", model_json_schema Teacher);
    ("parent", model_json_schema Parent);
    ("student", model_json_schema Student);
    ("class", model_json_schema Class');
    ("enrollment", model_json_schema Enrollment);
    ("attendance", model_json_schema Attendance);
    ("graderecord", model_json_schema GradeRecord);
    ("invoice", model_json_schema Invoice);
    ("payment", model_json_schema Payment);
    ("announcement", model_json_schema Announcement);
    ("notification", model_json_schema Notification);
    ("resource", model_json_schema Resource);
    ("assignment", model_json_schema Assignment);
    ("quiz", model_json_schema Quiz);
    ("quizsubmission", model_json_schema QuizSubmission);
    ("activitylog", model_json_schema ActivityLog) ].

(** A dict literal: the items are stored left to right, a later item
    replacing an earlier one with the same key. *)
Definition dict_of_items {A} (items : list (string * A)) : gmap string A :=
  foldl (λ d kv, <[kv.1 := kv.2]> d) ∅ items.

Definition get_schema : gmap string json_schema := dict_of_items get_schema_items.

(* ===================================================================== *)
(** * main.py: the signatures of the list handlers *)
(* ===================================================================== *)

(** The query parameters the list handler of a kind declares, in the
    order of its signature; [list_tenants] declares none, and [Teacher],
    [Parent] and [Notification] have no list handler. *)
Definition list_parameters (K : kind) : list string :=
  match K with
  | Tenant => []
  | User => ["tenant_id"]
  | Student => ["tenant_id"; "grade_level"]
  | Class' => ["tenant_id"]
  | Enrollment => ["tenant_id"; "class_id"; "student_id"]
  | Attendance => ["tenant_id"; "class_id"; "student_id"; "date"]
  | GradeRecord => ["tenant_id"; "student_id"; "class_id"; "term"]
  | Invoice => ["tenant_id"; "student_id"; "status"]
  | Payment => ["tenant_id"; "invoice_id"; "status"]
  | Announcement => ["tenant_id"]
  | Resource => ["tenant_id"; "subject"; "grade_level"]
  | Assignment => ["tenant_id"; "class_id"]
  | Quiz => ["tenant_id"; "class_id"]
  | QuizSubmission => ["tenant_id"; "quiz_id"; "student_id"]
  | ActivityLog => ["tenant_id"; "user_id"; "action"]
  | Teacher | Parent | Notification => []
  end.

(** The statements [if p: filt[p] = p] for the parameters [params], run
    in order on the empty dict. *)
Definition filter_of (params : list string) (q : gmap string string)
  : gmap string value :=
  foldl (λ filt p, set_if p (q !! p) filt) ∅ params.

(** What tells one route from another when a request is dispatched. *)
Definition route_key (r : route) : http_method * string :=
  (r_method r, r_path r).

(** [s.endswith(suffix)] *)
Definition ends_with (suffix s : string) : bool :=
  bool_decide (String.substring (String.length s - String.length suffix)
                                (String.length suffix) s = suffix).

(** The error entry of a field that is absent. *)
Definition missing_error (f : string) : error_detail := ErrorDetail f missing.

(* ===================================================================== *)
(** * Example data *)
(* ===================================================================== *)

(** A conversion that takes every value as it is. *)
Definition coerce_any : prim → value → option value := λ _ v, Some v.

(** The payload of the specification's scenario, without its
    [student_number]. *)
Definition ann_without_number : gmap string value :=
  <["tenant_id" := VStr "t1"]> (<["first_name" := VStr "Ann"]>
  (<["last_name" := VStr "Lee"]> (<["grade_level" := VStr "5"]> ∅))).

(** An attendance mark whose [status] is none of the documented words. *)
Definition attendance_mark : gmap string value :=
  <["tenant_id" := VStr "t1"]> (<["class_id" := VStr "c1"]>
  (<["student_id" := VStr "s1"]> (<["date" := VStr "2024-09-02"]>
  (<["status" := VStr "present"]> ∅)))).

(** A store with two students, one of grade 5 and one whose grade level
    is the empty string. *)
Definition ann : document :=
  Document "65f0c0ffee0000000000a001"
    (<["tenant_id" := VStr "t1"]> (<["grade_level" := VStr "5"]> ∅)).
Definition bob : document :=
  Document "65f0c0ffee0000000000a002"
    (<["tenant_id" := VStr "t1"]> (<["grade_level" := VStr ""]> ∅)).
Definition school : store_handle :=
  StoreHandle (HasAttr "edmin") None (<["student" := [ann; bob]]> ∅).

(** A store holding a document that was written with a field [id] of its
    own (a student number), as a bulk import would. *)
Definition carol : document :=
  Document "65f0c0ffee0000000000a003"
    (<["tenant_id" := VStr "t1"]> (<["id" := VStr "S100"]> ∅)).
Definition imported : store_handle :=
  StoreHandle (HasAttr "edmin") None (<["student" := [carol]]> ∅).

(** Two environments that both set [DATABASE_URL], one to the empty
    string. *)
Definition environ_empty_url : gmap string string := {["DATABASE_URL" := ""]}.
Definition environ_with_url : gmap string string :=
  {["DATABASE_URL" := "mongodb://localhost:27017"]}.

(** A query string with a parameter no list handler declares. *)
Definition query_with_page : gmap string string :=
  <["tenant_id" := "t1"]> (<["page" := "2"]> ∅).

(** The payload of the specification's scenario, complete. *)
Definition ann_payload : gmap string value :=
  <["student_number" := VStr "S100"]> ann_without_number.

(** The same payload with a key [Student] does not declare. *)
Definition ann_with_nickname : gmap string value :=
  <["nickname" := VStr "Annie"]> ann_payload.

(** A store whose one student is the document written from the scenario's
    payload, as validated. *)
Definition ann_stored : document :=
  Document "65f0c0ffee0000000000a004"
    (list_to_map (values_of coerce_any Student ann_payload)).
Definition enrolled : store_handle :=
  StoreHandle (HasAttr "edmin") None (<["student" := [ann_stored]]> ∅).

(** An enrollment whose class and student are named by texts that are
    the identifier of nothing. *)
Definition enrollment_of_nobody : gmap string value :=
  <["tenant_id" := VStr "t1"]> (<["class_id" := VStr "no such class"]>
  (<["student_id" := VStr "s1"]> ∅)).

(* ===================================================================== *)
(** * Collection names *)
(* ===================================================================== *)

Lemma collection_name_inj : Inj (=) (=) collection_name.
Proof.
  intros K1 K2 HK.
  destruct K1; destruct K2; try reflexivity; vm_compute in HK; discriminate HK.
Qed.

(** C4. The collection of an entity kind is the lowercase of its class
    name, nothing added: the eighteen names are the ones listed, none of
    them a plural, and two kinds never share a collection. *)
Theorem collection_name_lowercase_injective :
  (∀ K, collection_name K = lower (name K)) ∧
  collection_name <$> registered_kinds =
    [ "tenant"; "user"; "teacher"; "parent"; "student"; "class"; "enrollment";
      "attendance"; "graderecord"; "invoice"; "payment"; "announcement";
      "notification"; "resource"; "assignment"; "quiz"; "quizsubmission";
      "activitylog" ] ∧
  NoDup (collection_name <$> registered_kinds) ∧
  Inj (=) (=) collection_name.
Proof.
  split; [reflexivity|]. split; [reflexivity|]. split.
  - apply (bool_decide_unpack _). vm_compute. exact I.
  - exact collection_name_inj.
Qed.

(* ===================================================================== *)
(** * The partition key *)
(* ===================================================================== *)

(** C5. [tenant_id] is a field of every entity kind but [Tenant], where
    it is a required field; [Tenant] does not declare it. *)
Theorem tenant_id_on_every_kind_but_tenant (K : kind) :
  In K registered_kinds ∧
  declares K "tenant_id" = negb (bool_decide (K = Tenant)) ∧
  bool_decide ("tenant_id" ∈ required_fields K) = negb (bool_decide (K = Tenant)) ∧
  declares Tenant "tenant_id" = false.
Proof.
  destruct K; vm_compute; intuition.
Qed.

(* ===================================================================== *)
(** * GET /schema *)
(* ===================================================================== *)

Lemma get_schema_lookup (K : kind) :
  get_schema !! collection_name K = Some (model_json_schema K).
Proof. destruct K; vm_compute; reflexivity. Qed.

Lemma get_schema_dom :
  dom get_schema = list_to_set (collection_name <$> registered_kinds).
Proof.
  apply set_eq. intros key. rewrite elem_of_dom, elem_of_list_to_set. split.
  - intros [s Hs]. unfold get_schema, get_schema_items, dict_of_items in Hs.
    cbn [foldl fst snd] in Hs.
    repeat (apply lookup_insert_Some in Hs as [[<- _]|[_ Hs]];
            [apply (bool_decide_unpack _); vm_compute; exact I|]).
    rewrite lookup_empty in Hs. discriminate Hs.
  - intros (K & -> & _)%list_elem_of_fmap.
    rewrite get_schema_lookup. eauto.
Qed.

(** C3. The response of [GET /schema] has exactly eighteen top-level
    keys, the lowercase class names of the registered entity kinds, and
    each key holds the JSON Schema of its kind. *)
Theorem get_schema_eighteen_kinds :
  size get_schema = 18 ∧
  length registered_kinds = 18 ∧
  dom get_schema = list_to_set ((λ K, lower (name K)) <$> registered_kinds) ∧
  (∀ K, get_schema !! lower (name K) = Some (model_json_schema K)) ∧
  (∀ key s, get_schema !! key = Some s →
     ∃ K, In K registered_kinds ∧ key = lower (name K) ∧ s = model_json_schema K).
Proof.
  split; [vm_compute; reflexivity|]. split; [reflexivity|].
  split; [exact get_schema_dom|]. split; [exact get_schema_lookup|].
  intros key s Hs.
  assert (key ∈ dom get_schema) as Hkey by (apply elem_of_dom; eauto).
  rewrite get_schema_dom in Hkey.
  apply elem_of_list_to_set, list_elem_of_fmap in Hkey as (K & -> & HK).
  exists K. split; [by apply list_elem_of_In|]. split; [reflexivity|].
  rewrite get_schema_lookup in Hs. congruence.
Qed.

(* ===================================================================== *)
(** * Kinds with a schema and no route *)
(* ===================================================================== *)

(** Every handler that calls the gateway calls it on the collection of
    the model class of its route. *)
Lemma routes_call_their_collection (r : route) (q : gmap string string)
    (c : gateway_call) :
  r ∈ routes → handler_call (r_handler r) q = Some c →
  ∃ K, route_kind r = Some K ∧ call_collection c = collection_name K.
Proof.
  intros Hr Hc. unfold routes in Hr.
  repeat (apply elem_of_cons in Hr as [->|Hr];
          [cbn in Hc; first [discriminate Hc
                            | injection Hc as <-; eexists; split; reflexivity]|]).
  by apply elem_of_nil in Hr.
Qed.

(** C8. Every registered kind, [Teacher], [Parent] and [Notification]
    among them, has its schema under [GET /schema]; these three have no
    POST route that creates them and no GET route that lists them, while
    every other kind has both; and no handler of any route calls the
    gateway on the collection of one of the three. *)
Theorem teacher_parent_notification_have_no_route (K : kind) :
  get_schema !! collection_name K = Some (model_json_schema K) ∧
  has_route POST K = negb (bool_decide (K ∈ [Teacher; Parent; Notification])) ∧
  has_route GET K = negb (bool_decide (K ∈ [Teacher; Parent; Notification])) ∧
  (bool_decide (K ∈ [Teacher; Parent; Notification]) = true →
     ∀ r, r ∈ routes →
       route_kind r ≠ Some K ∧
       ∀ q c, handler_call (r_handler r) q = Some c →
              call_collection c ≠ collection_name K).
Proof.
  split; [apply get_schema_lookup|].
  split; [destruct K; vm_compute; reflexivity|].
  split; [destruct K; vm_compute; reflexivity|].
  intros HK r Hr.
  assert (route_kind r ≠ Some K) as Hkind.
  { intros Hkind.
    assert (has_route (r_method r) K = true) as Hhas.
    { unfold has_route. apply existsb_exists. exists r.
      split; [by apply list_elem_of_In|].
      rewrite !bool_decide_eq_true_2; done. }
    destruct K; try (vm_compute in HK; discriminate HK);
      destruct (r_method r); vm_compute in Hhas; discriminate Hhas. }
  split; [exact Hkind|].
  intros q c Hc Hcoll.
  destruct (routes_call_their_collection r q c Hr Hc) as (K' & HK' & Hc').
  rewrite Hc' in Hcoll. apply collection_name_inj in Hcoll. congruence.
Qed.

(* ===================================================================== *)
(** * Validation *)
(* ===================================================================== *)

Section ValidationFacts.

Variable coerce : prim → value → option value.

Lemma elem_of_errors_of (k : kind) (raw : gmap string value) (e : error_detail) :
  e ∈ errors_of coerce k raw ↔
  ∃ fd, fd ∈ fields k ∧ validate_field coerce raw fd = inl e.
Proof.
  unfold errors_of. rewrite list_elem_of_omap. split.
  - intros (r & Hr & He). apply list_elem_of_fmap in Hr as (fd & -> & Hfd).
    exists fd. split; [done|]. by destruct (validate_field coerce raw fd); simplify_eq.
  - intros (fd & Hfd & He). exists (inl e). split; [|done].
    apply list_elem_of_fmap. eauto.
Qed.

Lemma elem_of_values_of (k : kind) (raw : gmap string value) (x : string * value) :
  x ∈ values_of coerce k raw ↔
  ∃ fd, fd ∈ fields k ∧ validate_field coerce raw fd = inr x.
Proof.
  unfold values_of. rewrite list_elem_of_omap. split.
  - intros (r & Hr & He). apply list_elem_of_fmap in Hr as (fd & -> & Hfd).
    exists fd. split; [done|]. by destruct (validate_field coerce raw fd); simplify_eq.
  - intros (fd & Hfd & He). exists (inr x). split; [|done].
    apply list_elem_of_fmap. eauto.
Qed.

Lemma validate_field_loc (raw : gmap string value) (fd : field) (e : error_detail) :
  validate_field coerce raw fd = inl e → loc e = fname fd.
Proof.
  unfold validate_field. intros H.
  destruct (raw !! fname fd) as [v|].
  - destruct (validate_value coerce (ftyp fd) v); by simplify_eq.
  - destruct (fdef fd); by simplify_eq.
Qed.

Lemma validate_raises (k : kind) (raw : gmap string value) (e : error_detail) :
  e ∈ errors_of coerce k raw →
  validate coerce k raw = Raise (errors_of coerce k raw).
Proof.
  unfold validate. destruct (errors_of coerce k raw); [by intros ?%elem_of_nil|done].
Qed.

Lemma validate_ok (k : kind) (raw : gmap string value) :
  (∀ fd, fd ∈ fields k → ∃ x, validate_field coerce raw fd = inr x) →
  validate coerce k raw = Ok (values_of coerce k raw).
Proof.
  intros Hall. unfold validate.
  destruct (errors_of coerce k raw) as [|e errs] eqn:He; [done|].
  assert (e ∈ errors_of coerce k raw) as Hin by (rewrite He; left).
  apply elem_of_errors_of in Hin as (fd & Hfd & Hfail).
  destruct (Hall fd Hfd) as [x Hx]. congruence.
Qed.

Lemma required_field_declared (k : kind) (f : string) :
  f ∈ required_fields k → ∃ fd, fd ∈ fields k ∧ fname fd = f ∧ fdef fd = Required.
Proof.
  unfold required_fields.
  intros (fd & -> & Hfd)%list_elem_of_fmap.
  apply list_elem_of_filter in Hfd as [Hreq Hfd].
  exists fd. split; [done|]. split; [done|].
  unfold is_required in Hreq. by destruct (fdef fd).
Qed.

(** C2. For every entity kind, a raw mapping without one of the kind's
    required fields does not validate: validation raises, no record comes
    out, and the error names the field as missing. *)
Theorem missing_required_field_fails (k : kind) (raw : gmap string value)
    (f : string) :
  f ∈ required_fields k →
  raw !! f = None →
  ∃ errors,
    validate coerce k raw = Raise errors ∧
    ErrorDetail f missing ∈ errors ∧
    is_ok (validate coerce k raw) = false.
Proof.
  intros (fd & Hfd & <- & Hreq)%required_field_declared Hraw.
  assert (ErrorDetail (fname fd) missing ∈ errors_of coerce k raw) as Hin.
  { apply elem_of_errors_of. exists fd. split; [done|].
    unfold validate_field. by rewrite Hraw, Hreq. }
  exists (errors_of coerce k raw).
  rewrite (validate_raises _ _ _ Hin). done.
Qed.

Lemma free_text_fields_are_str (k : kind) (fd : field) :
  fd ∈ fields k → fname fd ∈ free_text_fields → is_str_like (ftyp fd) = true.
Proof.
  intros Hfd Hname.
  assert (forallb (λ fd, implb (bool_decide (fname fd ∈ free_text_fields))
                               (is_str_like (ftyp fd))) (fields k) = true) as Hall
    by (destruct k; vm_compute; reflexivity).
  rewrite forallb_forall in Hall.
  specialize (Hall fd (proj1 (list_elem_of_In _ _) Hfd)).
  rewrite bool_decide_eq_true_2 in Hall by done. exact Hall.
Qed.

Lemma validate_str_like (t : ftype) (s : string) :
  is_str_like t = true → validate_value coerce t (VStr s) = Some (VStr s).
Proof. destruct t as [| | | | | | | | |[]]; simpl; congruence. Qed.

(** C7. For every entity kind and every free-text field ([status],
    [role], [method], [type]), any string is accepted: if a payload has no
    validation error elsewhere, then with any string whatever under that
    field it validates, and where the kind declares the field the record
    holds that very string. *)
Theorem free_text_field_accepts_any_string (k : kind) (raw : gmap string value)
    (f s : string) :
  f ∈ free_text_fields →
  (∀ e, e ∈ errors_of coerce k raw → loc e = f) →
  ∃ record,
    validate coerce k (<[f := VStr s]> raw) = Ok record ∧
    (declares k f = true → (f, VStr s) ∈ record).
Proof.
  intros Hf Helse.
  assert (∀ fd, fd ∈ fields k →
            validate_field coerce (<[f := VStr s]> raw) fd =
              if decide (fname fd = f) then inr (f, VStr s)
              else validate_field coerce raw fd) as Hfield.
  { intros fd Hfd. unfold validate_field. case_decide as Hname.
    - rewrite Hname, lookup_insert_eq. rewrite <- Hname at 1.
      rewrite validate_str_like; [by rewrite Hname|].
      apply (free_text_fields_are_str k); [done|by rewrite Hname].
    - by rewrite lookup_insert_ne. }
  exists (values_of coerce k (<[f := VStr s]> raw)). split.
  - apply validate_ok. intros fd Hfd. rewrite (Hfield fd Hfd).
    case_decide as Hname; [eauto|].
    destruct (validate_field coerce raw fd) as [e|x] eqn:Hv; [|eauto].
    exfalso. apply Hname. rewrite <- (validate_field_loc _ _ _ Hv).
    apply Helse, elem_of_errors_of. eauto.
  - intros Hdecl. apply bool_decide_eq_true_1 in Hdecl.
    apply list_elem_of_fmap in Hdecl as (fd & -> & Hfd).
    apply elem_of_values_of. exists fd. split; [done|].
    rewrite (Hfield fd Hfd). by rewrite decide_True.
Qed.

End ValidationFacts.

(** A student without a student number is refused. *)
Lemma missing_required_field_fails_witness :
  ∃ errors,
    validate coerce_any Student ann_without_number = Raise errors ∧
    ErrorDetail "student_number" missing ∈ errors ∧
    is_ok (validate coerce_any Student ann_without_number) = false.
Proof.
  apply (missing_required_field_fails coerce_any Student ann_without_number
           "student_number").
  - apply (bool_decide_unpack _). vm_compute. exact I.
  - vm_compute. reflexivity.
Defined.

(** An attendance mark with the unlisted status [on a school trip]. *)
Lemma free_text_field_accepts_any_string_witness :
  ∃ record,
    validate coerce_any Attendance
      (<["status" := VStr "on a school trip"]> attendance_mark) = Ok record ∧
    (declares Attendance "status" = true →
       ("status", VStr "on a school trip") ∈ record).
Proof.
  apply (free_text_field_accepts_any_string coerce_any Attendance attendance_mark
           "status" "on a school trip").
  - apply (bool_decide_unpack _). vm_compute. exact I.
  - intros e He. vm_compute in He. by apply elem_of_nil in He.
Defined.

(* ===================================================================== *)
(** * Equality of values *)
(* ===================================================================== *)

(** Induction on values, with the hypothesis for every element of a list
    and every entry of a dict. *)
Lemma value_nested_ind (P : value → Prop) :
  P VNull →
  (∀ b, P (VBool b)) →
  (∀ q, P (VNum q)) →
  (∀ s, P (VStr s)) →
  (∀ h, P (VOid h)) →
  (∀ l, Forall P l → P (VList l)) →
  (∀ l, Forall (λ kx, P kx.2) l → P (VDict l)) →
  ∀ v, P v.
Proof.
  intros HNull HBool HNum HStr HOid HList HDict.
  fix go 1. intros [| b | q | s | h | l | l].
  - exact HNull.
  - apply HBool.
  - apply HNum.
  - apply HStr.
  - apply HOid.
  - apply HList. induction l as [|x l IHl]; constructor; [apply go | exact IHl].
  - apply HDict. induction l as [|[k x] l IHl]; constructor; [apply go | exact IHl].
Qed.

Lemma value_eqb_eq (v w : value) : value_eqb v w = true ↔ v = w.
Proof.
  revert w. induction v as [| b | q | s | h | l IH | l IH] using value_nested_ind;
    intros [| b' | q' | s' | h' | l' | l']; simpl;
    try (split; [discriminate | congruence]);
    try (split; reflexivity);
    try (rewrite bool_decide_eq_true; split; congruence).
  - revert l'. induction IH as [|x l Hx _ IHl]; intros [|y l'];
      try (split; [discriminate | congruence]); try (split; reflexivity).
    rewrite andb_true_iff, Hx, IHl. split; [intros [-> [= ->]]; reflexivity|].
    intros [= -> ->]. done.
  - revert l'. induction IH as [|[j x] l Hx _ IHl]; intros [|[k y] l'];
      try (split; [discriminate | congruence]); try (split; reflexivity).
    simpl in Hx.
    rewrite !andb_true_iff, bool_decide_eq_true, Hx, IHl.
    split; [intros [[-> ->] [= ->]]; reflexivity|].
    intros [= -> -> ->]. done.
Qed.

(* ===================================================================== *)
(** * The gateway's reads *)
(* ===================================================================== *)

Lemma matches_spec (F : gmap string value) (d : document) :
  matches F d = true ↔ ∀ k v, F !! k = Some v → stored d !! k = Some v.
Proof.
  unfold matches. rewrite forallb_forall. split.
  - intros Hall k v Hkv.
    specialize (Hall (k, v)). simpl in Hall.
    destruct (stored d !! k) as [w|].
    + f_equal. apply value_eqb_eq, Hall, list_elem_of_In, elem_of_map_to_list, Hkv.
    + discriminate Hall. apply list_elem_of_In, elem_of_map_to_list, Hkv.
  - intros Hall [k v] Hin. simpl.
    apply list_elem_of_In, elem_of_map_to_list in Hin.
    rewrite (Hall k v Hin). by apply value_eqb_eq.
Qed.

Lemma matches_empty (d : document) : matches ∅ d = true.
Proof. apply matches_spec. intros k v Hkv. by rewrite lookup_empty in Hkv. Qed.

Lemma public_record_lookup (d : document) (k : string) :
  k ≠ internal_id → k ≠ public_id → public_record d !! k = stored d !! k.
Proof.
  intros Hint Hpub. unfold public_record.
  by rewrite lookup_insert_ne, lookup_delete_ne.
Qed.

Lemma filter_all {A} (P : A → bool) (l : list A) :
  (∀ x, P x = true) → List.filter P l = l.
Proof.
  intros HP. induction l as [|x l IH]; simpl; [done|]. by rewrite HP, IH.
Qed.

(** With the store reachable, [get_documents] returns; a record is
    returned exactly when it is the public shape of a document of the
    collection that holds the filter's value under each of the filter's
    keys; every returned record holds the filter's value under every key
    of the filter other than the internal identifier field and the public
    [id] that replaces it; and with the empty filter the records are those
    of all the documents of the collection. *)
Lemma get_documents_matching (d : store_handle) (C : string)
    (F : gmap string value) :
  db_fault d = None →
  ∃ records,
    get_documents (Some d) C F = Ok records ∧
    (∀ r, r ∈ records ↔
       ∃ doc, doc ∈ default [] (db_collections d !! C) ∧ r = public_record doc ∧
              ∀ k v, F !! k = Some v → stored doc !! k = Some v) ∧
    (∀ r k v, r ∈ records → F !! k = Some v →
       k ≠ internal_id → k ≠ public_id → r !! k = Some v) ∧
    (F = ∅ → records = public_record <$> default [] (db_collections d !! C)).
Proof.
  intros Hfault. unfold get_documents. rewrite Hfault.
  eexists. split; [reflexivity|].
  assert (∀ r, r ∈ public_record <$>
                 List.filter (matches F) (default [] (db_collections d !! C)) ↔
            ∃ doc, doc ∈ default [] (db_collections d !! C) ∧ r = public_record doc ∧
                   ∀ k v, F !! k = Some v → stored doc !! k = Some v) as Hchar.
  { intros r. rewrite list_elem_of_fmap. split.
    - intros (doc & -> & Hdoc). apply list_elem_of_In, filter_In in Hdoc as [Hin Hm].
      exists doc. split; [by apply list_elem_of_In|]. split; [done|].
      by apply matches_spec.
    - intros (doc & Hin & -> & Hm). exists doc. split; [done|].
      apply list_elem_of_In, filter_In. split; [by apply list_elem_of_In|].
      by apply matches_spec. }
  split; [exact Hchar|]. split.
  - intros r k v (doc & _ & -> & Hm)%Hchar Hkv Hint Hpub.
    rewrite public_record_lookup by done. by apply Hm.
  - intros ->. f_equal. apply filter_all, matches_empty.
Qed.

(** At the two identifier fields the returned shape differs from the
    stored one. A filter that gives the store's own identifier under the
    internal identifier field selects the document, and the record
    returned for it has no such field; a filter on a field [id] that a
    document was stored with selects the document, and the record returned
    for it holds the store's identifier under [id]. *)
Lemma get_documents_drops_internal_id :
  (∃ r,
     get_documents (Some school) "student" {[internal_id := VOid (doc_oid ann)]}
       = Ok [r] ∧
     ({[internal_id := VOid (doc_oid ann)]} : gmap string value) !! internal_id
       = Some (VOid (doc_oid ann)) ∧
     r !! internal_id = None ∧
     r !! internal_id ≠ Some (VOid (doc_oid ann))) ∧
  (∃ r,
     get_documents (Some imported) "student" {[public_id := VStr "S100"]}
       = Ok [r] ∧
     ({[public_id := VStr "S100"]} : gmap string value) !! public_id
       = Some (VStr "S100") ∧
     r !! public_id = Some (VStr (doc_oid carol)) ∧
     r !! public_id ≠ Some (VStr "S100")).
Proof.
  split.
  - exists (public_record ann).
    split; [vm_compute; reflexivity|].
    split; [vm_compute; reflexivity|].
    split; [vm_compute; reflexivity|].
    vm_compute. discriminate.
  - exists (public_record carol).
    split; [vm_compute; reflexivity|].
    split; [vm_compute; reflexivity|].
    split; [vm_compute; reflexivity|].
    vm_compute. discriminate.
Qed.

(* ===================================================================== *)
(** * Query parameters of the list handlers *)
(* ===================================================================== *)

Lemma set_if_empty_string (q : gmap string string) (p key : string)
    (filt : gmap string value) :
  q !! p = Some "" →
  set_if key (q !! key) filt = set_if key (delete p q !! key) filt.
Proof.
  intros Hp. destruct (decide (key = p)) as [->|Hne].
  - by rewrite Hp, lookup_delete_eq.
  - by rewrite lookup_delete_ne.
Qed.

Lemma set_if_lookup (q : gmap string string) (p key : string)
    (filt : gmap string value) :
  q !! p = Some "" →
  set_if key (q !! key) filt !! p = filt !! p.
Proof.
  intros Hp. destruct (decide (key = p)) as [->|Hne].
  - by rewrite Hp.
  - unfold set_if. destruct (q !! key) as [s|]; [|done].
    destruct (truthy (Some s)); [|done]. by rewrite lookup_insert_ne.
Qed.

(** C9. A query parameter given as the empty string counts as absent in
    every list handler: the gateway call is the one made without the
    parameter, and its filter has no entry for it. So [GET /students] with
    an empty [grade_level] asks for the students with the empty filter, and
    gets them all, the one whose grade level is the empty string no more
    than the others. *)
Theorem empty_query_parameter_is_absent (q : gmap string string) (p : string) :
  q !! p = Some "" →
  length list_handlers = 15 ∧
  Forall (λ Kh, Kh.2 q = Kh.2 (delete p q) ∧ call_filter (Kh.2 q) !! p = None)
         list_handlers ∧
  list_students None (Some "") = GetDocuments (collection_name Student) ∅ ∧
  (∀ d, db_fault d = None →
     run_list (Some d) (list_students None (Some "")) =
       Ok (public_record <$> default [] (db_collections d !! "student"))).
Proof.
  intros Hp. split; [reflexivity|]. split.
  - unfold list_handlers, routes. cbn [omap list_omap r_handler].
    repeat (apply Forall_cons; split;
            [ cbn [snd]; split;
              [ unfold list_tenants, list_users, list_students, list_classes,
                  list_enrollments, list_attendance, list_grades, list_invoices,
                  list_payments, list_announcements, list_resources,
                  list_assignments, list_quizzes, list_quiz_submissions,
                  list_activity;
                cbv zeta; rewrite <- ?(set_if_empty_string q p) by exact Hp;
                reflexivity
              | unfold list_tenants, list_users, list_students, list_classes,
                  list_enrollments, list_attendance, list_grades, list_invoices,
                  list_payments, list_announcements, list_resources,
                  list_assignments, list_quizzes, list_quiz_submissions,
                  list_activity;
                cbv zeta; cbn [call_filter];
                rewrite ?(set_if_lookup q p) by exact Hp;
                apply lookup_empty ]
            | ]).
    constructor.
  - split; [reflexivity|].
    intros d Hfault. unfold run_list. cbn [list_students set_if truthy call_filter call_collection].
    unfold get_documents. rewrite Hfault. f_equal.
    change (collection_name Student) with "student".
    f_equal. apply filter_all, matches_empty.
Qed.

(** [GET /students?grade_level=]: both students of the school come back. *)
Lemma empty_query_parameter_is_absent_witness :
  list_students (({["grade_level" := ""]} : gmap string string) !! "tenant_id")
                (({["grade_level" := ""]} : gmap string string) !! "grade_level")
    = GetDocuments "student" ∅ ∧
  run_list (Some school) (list_students None (Some ""))
    = Ok [public_record ann; public_record bob].
Proof.
  destruct (empty_query_parameter_is_absent {["grade_level" := ""]} "grade_level")
    as (_ & _ & Hcall & Hrun).
  - vm_compute. reflexivity.
  - split; [vm_compute; reflexivity|].
    rewrite (Hrun school eq_refl). vm_compute. reflexivity.
Defined.

(* ===================================================================== *)
(** * GET /test *)
(* ===================================================================== *)

Lemma str_take_length (n : nat) (s : string) : String.length (str_take n s) ≤ n.
Proof.
  revert s. induction n as [|n IH]; intros [|c s]; simpl; try lia.
  specialize (IH s). lia.
Qed.

(** Runs the statements of the handler on the initial [response]. *)
Ltac run_handler :=
  cbv [test_database test_database_body try_ seq call mbind stmt_bind mret
       stmt_ret ret set_database set_database_url set_database_name
       set_connection_status set_collections return_response initial_response
       name_or_connected list_collection_names db_name db_fault db_collections
       backend database database_url database_name connection_status
       collections snd fst].

(** The handler returns, and these are the fields of what it returns. *)
Lemma test_database_returns (environ : gmap string string) (db : option store_handle) :
  ∃ r,
    test_database environ db = Ok r ∧
    backend r = "✅ Running" ∧
    database r =
      match db with
      | None => "⚠️  Available but not initialized"
      | Some d =>
          match name_or_connected d with
          | Raise e => "❌ Error: " +:+ str_take 50 e
          | Ok _ =>
              match list_collection_names d with
              | Raise e => "⚠️  Connected but Error: " +:+ str_take 50 e
              | Ok _ => "✅ Connected & Working"
              end
          end
      end ∧
    database_url r =
      Some (if truthy (getenv environ "DATABASE_URL") then "✅ Set" else "❌ Not Set") ∧
    database_name r =
      Some (if truthy (getenv environ "DATABASE_NAME") then "✅ Set" else "❌ Not Set").
Proof.
  destruct db as [[[v| |msg] [fault|] colls]|]; run_handler;
    (eexists; split; [reflexivity|]); cbv [backend database database_url database_name];
    repeat split.
Qed.

(** C6. [GET /test] always answers 200 with the diagnostic object: no
    exception leaves the handler. What went wrong is told in the
    [database] field: without a store handle it reads as not initialized;
    when the handle itself fails, or the store does not answer the listing
    of its collections, it holds an error text with at most the first 50
    characters of the exception's message; it reads as connected and
    working only when the store answered. *)
Theorem test_database_never_fails (environ : gmap string string)
    (db : option store_handle) :
  ∃ r,
    test_database environ db = Ok r ∧
    http_status (test_database environ db) = 200 ∧
    backend r = "✅ Running" ∧
    database r =
      match db with
      | None => "⚠️  Available but not initialized"
      | Some d =>
          match name_or_connected d with
          | Raise e => "❌ Error: " +:+ str_take 50 e
          | Ok _ =>
              match list_collection_names d with
              | Raise e => "⚠️  Connected but Error: " +:+ str_take 50 e
              | Ok _ => "✅ Connected & Working"
              end
          end
      end ∧
    (database r = "✅ Connected & Working" ↔
       ∃ d n colls, db = Some d ∧ name_or_connected d = Ok n ∧
                    list_collection_names d = Ok colls) ∧
    (∀ e, String.length (str_take 50 e) ≤ 50).
Proof.
  destruct (test_database_returns environ db) as (r & Hr & Hb & Hd & _).
  exists r. rewrite Hr. split; [done|]. split; [done|]. split; [done|].
  split; [done|]. split; [|intros e; apply str_take_length].
  rewrite Hd. clear Hr Hb Hd.
  destruct db as [[[v| |msg] [fault|] colls]|];
    cbv [name_or_connected list_collection_names db_name db_fault db_collections];
    (split; [intros H|intros (d & n & cs & Hdb & Hn & Hl)]);
    try (cbn in H; discriminate H);
    try discriminate Hdb;
    try (injection Hdb as <-; cbn in Hn, Hl; discriminate);
    eauto 10.
Qed.

(** C10, as amended. The [database_url] and [database_name] of the
    answer of [GET /test] depend only on whether [DATABASE_URL] and
    [DATABASE_NAME] are set to a non-empty value: they are the flags the
    handler computes last from [os.getenv] taken as a truth value, whatever
    the state of the store, so two runs in the same environment give the
    same two fields. *)
Theorem test_database_env_flags (environ : gmap string string)
    (db1 db2 : option store_handle) :
  ∃ r1 r2,
    test_database environ db1 = Ok r1 ∧
    test_database environ db2 = Ok r2 ∧
    database_url r1 = database_url r2 ∧
    database_name r1 = database_name r2 ∧
    database_url r1 =
      Some (if truthy (getenv environ "DATABASE_URL") then "✅ Set" else "❌ Not Set") ∧
    database_name r1 =
      Some (if truthy (getenv environ "DATABASE_NAME") then "✅ Set" else "❌ Not Set").
Proof.
  destruct (test_database_returns environ db1) as (r1 & H1 & _ & _ & Hu1 & Hn1).
  destruct (test_database_returns environ db2) as (r2 & H2 & _ & _ & Hu2 & Hn2).
  exists r1, r2. rewrite Hu1, Hu2, Hn1, Hn2. done.
Qed.

(** C10, as stated, fails on a variable set to the empty string: in two
    environments that both set [DATABASE_URL], with the same store, the
    [database_url] fields differ, the empty one being reported as not
    set. *)
Lemma test_database_empty_variable_not_set :
  is_Some (environ_empty_url !! "DATABASE_URL") ∧
  is_Some (environ_with_url !! "DATABASE_URL") ∧
  environ_empty_url !! "DATABASE_NAME" = environ_with_url !! "DATABASE_NAME" ∧
  ∃ r1 r2,
    test_database environ_empty_url (Some school) = Ok r1 ∧
    test_database environ_with_url (Some school) = Ok r2 ∧
    database_url r1 = Some "❌ Not Set" ∧
    database_url r2 = Some "✅ Set" ∧
    database_url r1 ≠ database_url r2.
Proof.
  split; [vm_compute; eauto|]. split; [vm_compute; eauto|].
  split; [vm_compute; reflexivity|].
  do 2 eexists. split; [vm_compute; reflexivity|]. split; [vm_compute; reflexivity|].
  split; [reflexivity|]. split; [reflexivity|]. cbn. discriminate.
Qed.

(* ===================================================================== *)
(** * The filters of the list handlers *)
(* ===================================================================== *)

Lemma lookup_set_if (key : string) (arg : option string)
    (filt : gmap string value) (k : string) :
  set_if key arg filt !! k =
    if decide (k = key)
    then (if truthy arg then VStr <$> arg else filt !! k)
    else filt !! k.
Proof.
  unfold set_if. destruct arg as [[|c s]|]; simpl; case_decide; subst;
    rewrite ?lookup_insert_eq, ?lookup_insert_ne by done; done.
Qed.

Lemma lookup_foldl_set_if (params : list string) (q : gmap string string)
    (filt : gmap string value) (k : string) :
  foldl (λ filt p, set_if p (q !! p) filt) filt params !! k =
    if bool_decide (k ∈ params) && truthy (q !! k)
    then VStr <$> q !! k
    else filt !! k.
Proof.
  revert filt. induction params as [|p params IH]; intros filt; simpl; [done|].
  rewrite IH, lookup_set_if.
  destruct (decide (k = p)) as [->|Hne].
  - rewrite (bool_decide_eq_true_2 (p ∈ p :: params)) by left. simpl.
    destruct (bool_decide (p ∈ params)); simpl; by destruct (truthy (q !! p)).
  - assert (bool_decide (k ∈ p :: params) = bool_decide (k ∈ params)) as ->; [|done].
    apply bool_decide_ext. rewrite elem_of_cons.
    split; [intros [?|?]; [contradiction|done]|by right].
Qed.

Lemma lookup_filter_of (params : list string) (q : gmap string string) (k : string) :
  filter_of params q !! k =
    if bool_decide (k ∈ params) && truthy (q !! k)
    then VStr <$> q !! k
    else None.
Proof. unfold filter_of. by rewrite lookup_foldl_set_if, lookup_empty. Qed.

Lemma filter_of_agree (params : list string) (q q' : gmap string string) :
  (∀ p, p ∈ params → q !! p = q' !! p) → filter_of params q = filter_of params q'.
Proof.
  intros Hagree. apply map_eq. intros k. rewrite !lookup_filter_of.
  destruct (decide (k ∈ params)) as [Hin|Hout].
  - by rewrite (Hagree k Hin).
  - by rewrite (bool_decide_eq_false_2 _ Hout).
Qed.

(** Every list handler asks for the documents of its kind's collection
    with the filter its parameters build. *)
Lemma list_handlers_filter_of :
  Forall (λ Kh, ∀ q, Kh.2 q =
                     GetDocuments (collection_name Kh.1)
                                  (filter_of (list_parameters Kh.1) q))
         list_handlers.
Proof.
  unfold list_handlers, routes. cbn [omap list_omap r_handler].
  repeat (apply Forall_cons; split; [intros q; reflexivity|]).
  constructor.
Qed.

(** X1. The filter a list handler hands to the gateway holds exactly the
    query parameters that the handler declares and that are given with a
    non-empty text, each under its own name and as a string; it has no
    other key. *)
Theorem list_filter_is_the_declared_nonempty_parameters :
  length list_handlers = 15 ∧
  Forall (λ Kh, ∀ q k,
            call_filter (Kh.2 q) !! k =
              if bool_decide (k ∈ list_parameters Kh.1) && truthy (q !! k)
              then VStr <$> q !! k
              else None)
         list_handlers.
Proof.
  split; [reflexivity|].
  eapply Forall_impl; [exact list_handlers_filter_of|].
  intros [K h] Hh q k. cbn in *. rewrite Hh. cbn. apply lookup_filter_of.
Qed.

(** X2. A list handler looks at the query parameters it declares and at
    no other: two query strings that agree on them lead to the same
    gateway call, so a parameter the handler does not declare is ignored,
    whatever its value. *)
Theorem list_handler_ignores_undeclared_parameters
    (q q' : gmap string string) :
  Forall (λ Kh, (∀ p, p ∈ list_parameters Kh.1 → q !! p = q' !! p) →
                Kh.2 q = Kh.2 q')
         list_handlers.
Proof.
  eapply Forall_impl; [exact list_handlers_filter_of|].
  intros [K h] Hh Hagree. cbn in *. rewrite !Hh. f_equal.
  by apply filter_of_agree.
Qed.

(* ===================================================================== *)
(** * The routes *)
(* ===================================================================== *)

(** X3. No two routes have the same method and path, so no handler hides
    another; and a kind that is created under a path is listed under the
    same path. *)
Theorem routes_do_not_shadow :
  NoDup (route_key <$> routes) ∧
  length routes = 33 ∧
  ∀ r r' K, r ∈ routes → r' ∈ routes →
            route_kind r = Some K → route_kind r' = Some K →
            r_path r = r_path r'.
Proof.
  split; [apply (bool_decide_unpack _); vm_compute; exact I|].
  split; [reflexivity|].
  intros r r' K Hr Hr' HK HK'.
  assert (∀ r, r ∈ routes → ∀ K, route_kind r = Some K →
            r_path r = match K with
                       | Tenant => "/tenants" | User => "/users"
                       | Student => "/students" | Class' => "/classes"
                       | Enrollment => "/enrollments" | Attendance => "/attendance"
                       | GradeRecord => "/grades" | Invoice => "/invoices"
                       | Payment => "/payments" | Announcement => "/announcements"
                       | Resource => "/resources" | Assignment => "/assignments"
                       | Quiz => "/quizzes" | QuizSubmission => "/quiz-submissions"
                       | ActivityLog => "/activity"
                       | Teacher | Parent | Notification => ""
                       end) as Hpath.
  { clear. intros r Hr K HK. unfold routes in Hr.
    repeat (apply elem_of_cons in Hr as [->|Hr];
            [cbn in HK; first [discriminate HK | injection HK as <-; reflexivity]|]).
    by apply elem_of_nil in Hr. }
  by rewrite (Hpath r Hr K HK), (Hpath r' Hr' K HK').
Qed.

(* ===================================================================== *)
(** * GET /test: the other fields of the answer *)
(* ===================================================================== *)

(** The connection status and the collections of what the handler
    returns. *)
Lemma test_database_connection (environ : gmap string string)
    (db : option store_handle) :
  ∃ r,
    test_database environ db = Ok r ∧
    connection_status r =
      match db with
      | None => "Not Connected"
      | Some d =>
          match name_or_connected d with
          | Raise _ => "Not Connected"
          | Ok _ => "Connected"
          end
      end ∧
    collections r =
      match db with
      | None => []
      | Some d =>
          match name_or_connected d with
          | Raise _ => []
          | Ok _ =>
              match list_collection_names d with
              | Raise _ => []
              | Ok colls => take 20 colls
              end
          end
      end.
Proof.
  destruct db as [[[v| |msg] [fault|] colls]|]; run_handler;
    (eexists; split; [reflexivity|]); cbv [connection_status collections];
    repeat split.
Qed.

(** X4. The [collections] of the answer of [GET /test] are the first
    twenty names the store lists, all of them when it lists fewer; the list
    is empty whenever there is no store handle, the handle fails or the
    listing fails, so a non-empty list comes with the status of a working
    store. *)
Theorem test_database_collections_sample (environ : gmap string string)
    (db : option store_handle) :
  ∃ r,
    test_database environ db = Ok r ∧
    length (collections r) ≤ 20 ∧
    (∀ d n colls, db = Some d → name_or_connected d = Ok n →
       list_collection_names d = Ok colls →
       collections r = take 20 colls ∧
       (length colls ≤ 20 → collections r = colls)) ∧
    (collections r ≠ [] → database r = "✅ Connected & Working").
Proof.
  destruct (test_database_connection environ db) as (r & Hr & _ & Hc).
  destruct (test_database_returns environ db) as (r' & Hr' & _ & Hd & _).
  assert (r' = r) as -> by congruence.
  exists r. split; [exact Hr|]. rewrite Hc, Hd. clear Hr Hr' Hc Hd.
  split; [|split].
  - destruct db as [d|]; [|simpl; lia].
    destruct (name_or_connected d); [|simpl; lia].
    destruct (list_collection_names d) as [colls|]; [|simpl; lia].
    rewrite length_take. lia.
  - intros d n colls -> -> ->. split; [done|]. intros Hlen. by apply take_ge.
  - destruct db as [d|]; [|done].
    destruct (name_or_connected d); [|done].
    by destruct (list_collection_names d).
Qed.

(** X5. The [connection_status] of the answer of [GET /test] tells
    whether there is a store handle whose name can be read, not whether
    the store answers: with a handle whose listing of collections fails it
    reads [Connected], next to a [database] field that reports the error;
    without a handle, or when reading the handle's name raises, it reads
    [Not Connected]. *)
Theorem test_database_connected_without_answer (environ : gmap string string)
    (db : option store_handle) :
  ∃ r,
    test_database environ db = Ok r ∧
    (connection_status r = "Connected" ∨ connection_status r = "Not Connected") ∧
    (connection_status r = "Connected" ↔
       ∃ d n, db = Some d ∧ name_or_connected d = Ok n) ∧
    (∀ d n msg, db = Some d → name_or_connected d = Ok n →
       list_collection_names d = Raise msg →
       connection_status r = "Connected" ∧
       database r = "⚠️  Connected but Error: " +:+ str_take 50 msg ∧
       collections r = []).
Proof.
  destruct (test_database_connection environ db) as (r & Hr & Hs & Hc).
  destruct (test_database_returns environ db) as (r' & Hr' & _ & Hd & _).
  assert (r' = r) as -> by congruence.
  exists r. split; [exact Hr|]. rewrite Hs, Hc, Hd. clear Hr Hr' Hs Hc Hd.
  split; [|split].
  - destruct db as [d|]; [|by right]. destruct (name_or_connected d); eauto.
  - destruct db as [d|].
    + destruct (name_or_connected d) as [n|e] eqn:Hname.
      * split; [intros _; by exists d, n|done].
      * split; [discriminate|]. intros (d' & n & [= <-] & Hn). congruence.
    + split; [discriminate|]. intros (d' & n & Hd & _). discriminate Hd.
  - intros d n msg -> -> ->. done.
Qed.

(** X6. The status the handler starts from, [Not Available], and the
    ones it sets on the way, [Available] for the store and [Configured] for
    its URL, never reach the answer of [GET /test]: each is overwritten on
    every path. *)
Theorem test_database_initial_status_never_returned
    (environ : gmap string string) (db : option store_handle) :
  ∃ r,
    test_database environ db = Ok r ∧
    database r ≠ database initial_response ∧
    database r ≠ "✅ Available" ∧
    database_url r ≠ database_url initial_response ∧
    database_url r ≠ Some "✅ Configured" ∧
    database_name r ≠ database_name initial_response.
Proof.
  destruct (test_database_returns environ db) as (r & Hr & _ & Hd & Hu & Hn).
  exists r. split; [exact Hr|]. rewrite Hd, Hu, Hn. clear Hr Hd Hu Hn.
  split; [|split; [|split; [|split]]].
  - destruct db as [[[v| |msg] [fault|] colls]|]; cbn; discriminate.
  - destruct db as [[[v| |msg] [fault|] colls]|]; cbn; discriminate.
  - discriminate.
  - destruct (truthy (getenv environ "DATABASE_URL")); discriminate.
  - discriminate.
Qed.

(* ===================================================================== *)
(** * Validation: what is reported, what is produced *)
(* ===================================================================== *)

Lemma field_names_NoDup (k : kind) : NoDup (field_names k).
Proof. destruct k; apply (bool_decide_unpack _); vm_compute; exact I. Qed.

Section ValidationReports.

Variable coerce : prim → value → option value.

Lemma validate_field_name (raw : gmap string value) (fd : field)
    (x : string * value) :
  validate_field coerce raw fd = inr x → x.1 = fname fd.
Proof.
  unfold validate_field. intros H.
  destruct (raw !! fname fd) as [v|].
  - destruct (validate_value coerce (ftyp fd) v); by simplify_eq.
  - destruct (fdef fd); by simplify_eq.
Qed.

(** Validation reads the raw mapping through the declared fields only. *)
Lemma validate_ext (k : kind) (raw raw' : gmap string value) :
  (∀ fd, fd ∈ fields k →
     validate_field coerce raw fd = validate_field coerce raw' fd) →
  validate coerce k raw = validate coerce k raw'.
Proof.
  intros Hsame.
  assert (validate_field coerce raw <$> fields k =
          validate_field coerce raw' <$> fields k) as Hmap.
  { apply Forall_fmap_ext_1, Forall_forall. exact Hsame. }
  unfold validate, errors_of, values_of. by rewrite Hmap.
Qed.

(** X7. The fields reported as missing are exactly the required fields
    that the raw mapping does not hold, in declaration order. So the empty
    mapping is refused for every kind, with one entry for each required
    field and no other entry. *)
Theorem missing_errors_are_the_absent_required_fields (k : kind)
    (raw : gmap string value) :
  List.filter (λ e, bool_decide (type_ e = missing)) (errors_of coerce k raw) =
    missing_error <$>
      List.filter (λ f, bool_decide (raw !! f = None)) (required_fields k) ∧
  validate coerce k ∅ = Raise (missing_error <$> required_fields k) ∧
  required_fields k ≠ [].
Proof.
  split; [|split].
  - unfold errors_of, required_fields. induction (fields k) as [|fd l IH]; [done|].
    rewrite fmap_cons, filter_cons. cbn [omap list_omap].
    unfold validate_field at 1.
    destruct (decide (is_required fd = true)) as [Hreq|Hreq];
      unfold is_required in Hreq;
      destruct (raw !! fname fd) as [v|] eqn:Hraw;
      destruct (fdef fd) eqn:Hdef; try done;
      try destruct (validate_value coerce (ftyp fd) v);
      cbn; rewrite ?Hraw; cbn; rewrite ?IH; reflexivity.
  - destruct k; vm_compute; reflexivity.
  - destruct k; vm_compute; discriminate.
Qed.

(** X8. Validation looks at the declared fields and at nothing else:
    two raw mappings that agree on the names the kind declares have the
    same outcome, so a key that names no field is ignored, not refused. *)
Theorem validation_ignores_undeclared_keys (k : kind)
    (raw raw' : gmap string value) :
  (∀ f, f ∈ field_names k → raw !! f = raw' !! f) →
  validate coerce k raw = validate coerce k raw'.
Proof.
  intros Hagree. apply validate_ext. intros fd Hfd.
  unfold validate_field. rewrite (Hagree (fname fd)); [done|].
  apply list_elem_of_fmap. eauto.
Qed.

Lemma values_names (raw : gmap string value) (l : list field) :
  omap (λ r, match r with inl e => Some e | inr _ => None end)
       (validate_field coerce raw <$> l) = [] →
  (omap (λ r, match r with inl _ => None | inr x => Some x end)
        (validate_field coerce raw <$> l)).*1 = fname <$> l.
Proof.
  induction l as [|fd l IH]; [done|]. cbn.
  destruct (validate_field coerce raw fd) as [e|x] eqn:Hfd; [discriminate|].
  intros Hl. cbn. f_equal; [by eapply validate_field_name|by apply IH].
Qed.

Lemma validate_Ok_inv (k : kind) (raw : gmap string value)
    (record : list (string * value)) :
  validate coerce k raw = Ok record →
  errors_of coerce k raw = [] ∧ record = values_of coerce k raw.
Proof.
  unfold validate. destruct (errors_of coerce k raw); [|discriminate].
  by intros [= <-].
Qed.

Lemma validated_record_names (k : kind)
    (raw : gmap string value) (record : list (string * value)) :
  validate coerce k raw = Ok record →
  record.*1 = field_names k ∧ NoDup record.*1.
Proof.
  intros [Herr ->]%validate_Ok_inv.
  assert ((values_of coerce k raw).*1 = field_names k) as Hnames
    by (apply values_names, Herr).
  split; [exact Hnames|]. rewrite Hnames. apply field_names_NoDup.
Qed.

(** X9. A record that comes out of validation has every declared
    field, once and in declaration order, whatever keys the raw mapping
    had; a field the raw mapping does not hold stands in the record with
    its declared default. *)
Theorem validated_record_has_the_declared_fields (k : kind)
    (raw : gmap string value) (record : list (string * value)) :
  validate coerce k raw = Ok record →
  record.*1 = field_names k ∧
  NoDup record.*1 ∧
  (∀ fd v, fd ∈ fields k → raw !! fname fd = None →
     fdef fd = Default v ∨ fdef fd = DefaultFactory v →
     (fname fd, v) ∈ record).
Proof.
  intros [Herr ->]%validate_Ok_inv.
  assert ((values_of coerce k raw).*1 = field_names k) as Hnames
    by (apply values_names, Herr).
  split; [exact Hnames|]. split; [rewrite Hnames; apply field_names_NoDup|].
  intros fd v Hfd Hraw Hdef. apply elem_of_values_of. exists fd. split; [done|].
  unfold validate_field. rewrite Hraw. by destruct Hdef as [->| ->].
Qed.

End ValidationReports.

(** The scenario's student with a nickname validates as without it. *)
Lemma validation_ignores_undeclared_keys_witness :
  validate coerce_any Student ann_with_nickname
    = validate coerce_any Student ann_payload ∧
  is_ok (validate coerce_any Student ann_with_nickname) = true.
Proof.
  split; [|vm_compute; reflexivity].
  apply (validation_ignores_undeclared_keys coerce_any Student
           ann_with_nickname ann_payload).
  intros f Hf. unfold ann_with_nickname. apply lookup_insert_ne.
  intros <-. revert Hf. apply (bool_decide_eq_false_1 _). vm_compute. reflexivity.
Defined.

(** The scenario's student: ten fields, the status defaulted to active. *)
Lemma validated_record_has_the_declared_fields_witness :
  ∃ record,
    validate coerce_any Student ann_payload = Ok record ∧
    record.*1 = field_names Student ∧
    ("status", VStr "active") ∈ record.
Proof.
  exists (values_of coerce_any Student ann_payload).
  assert (validate coerce_any Student ann_payload
            = Ok (values_of coerce_any Student ann_payload)) as Hok
    by (vm_compute; reflexivity).
  destruct (validated_record_has_the_declared_fields coerce_any Student
              ann_payload _ Hok) as (Hnames & _ & Hdefault).
  split; [exact Hok|]. split; [exact Hnames|].
  apply (Hdefault (Field "status" TStr (Default (VStr "active")) None)).
  - unfold fields, Student_fields. repeat constructor.
  - vm_compute. reflexivity.
  - left. reflexivity.
Defined.

(* ===================================================================== *)
(** * Validation: a validated record validates to itself *)
(* ===================================================================== *)

Section ValidationRoundTrip.

Variable coerce : prim → value → option value.

(** What the library's conversions are asked to do here: a converted
    value converts to itself, and a boolean is taken as a boolean. *)
Hypothesis coerce_idempotent :
  ∀ p v v', coerce p v = Some v' → coerce p v' = Some v'.
Hypothesis coerce_bool : ∀ b, coerce PBool (VBool b) = Some (VBool b).

Lemma validate_value_idempotent (t : ftype) (v v' : value) :
  validate_value coerce t v = Some v' → validate_value coerce t v' = Some v'.
Proof.
  revert v v'. induction t as [| | | | | | |t IH|t IH|t IH]; intros v v' H; simpl in *;
    try (by eapply coerce_idempotent).
  - by destruct v; simplify_eq.
  - by simplify_eq.
  - destruct v as [| | | | |l|]; try discriminate.
    destruct (mapM (validate_value coerce t) l) as [l'|] eqn:Hl; [|discriminate].
    injection H as <-. apply mapM_Some in Hl.
    assert (mapM (validate_value coerce t) l' = Some l') as ->; [|done].
    apply mapM_Some. induction Hl as [|x y l l' Hxy _ IHl]; constructor; eauto.
  - destruct v as [| | | | | |l]; try discriminate.
    destruct (mapM (λ kx, (λ y, (kx.1, y)) <$> validate_value coerce t kx.2) l)
      as [l'|] eqn:Hl; [|discriminate].
    injection H as <-. apply mapM_Some in Hl.
    assert (mapM (λ kx, (λ y, (kx.1, y)) <$> validate_value coerce t kx.2) l'
              = Some l') as ->; [|done].
    apply mapM_Some. induction Hl as [|[j x] [j' y] l l' Hxy _ IHl]; constructor;
      [|exact IHl].
    simpl in *. destruct (validate_value coerce t x) as [y'|] eqn:Hx; [|discriminate].
    injection Hxy as <- <-. by rewrite (IH _ _ Hx).
  - destruct v; simpl in H;
      try (injection H as <-; reflexivity);
      destruct v'; try reflexivity; by eapply IH.
Qed.

Lemma defaults_conform (k : kind) (fd : field) (v : value) :
  fd ∈ fields k →
  fdef fd = Default v ∨ fdef fd = DefaultFactory v →
  validate_value coerce (ftyp fd) v = Some v.
Proof.
  intros Hfd Hdef.
  destruct k; unfold fields in Hfd;
    unfold Tenant_fields, User_fields, Teacher_fields, Parent_fields,
      Student_fields, Class_fields, Enrollment_fields, Attendance_fields,
      GradeRecord_fields, Invoice_fields, Payment_fields, Announcement_fields,
      Notification_fields, Resource_fields, Assignment_fields, Quiz_fields,
      QuizSubmission_fields, ActivityLog_fields in Hfd;
    repeat (apply elem_of_cons in Hfd as [->|Hfd];
            [cbn in Hdef; destruct Hdef as [Hdef|Hdef]; try discriminate Hdef;
             injection Hdef as <-; cbn; rewrite ?coerce_bool; reflexivity|]);
    by apply elem_of_nil in Hfd.
Qed.

(** X11. Validation is idempotent. When the library's conversions are
    (a converted value converts to itself, a boolean is a boolean), the
    record that comes out of validation, read as a mapping from field name
    to value, validates again, to the very same record: the declared
    defaults conform to their annotations and nothing is converted
    twice. *)
Theorem validation_is_idempotent (k : kind) (raw : gmap string value)
    (record : list (string * value)) :
  validate coerce k raw = Ok record →
  validate coerce k (list_to_map record) = Ok record.
Proof.
  intros Hok. rewrite <- Hok. apply validate_ext. intros fd Hfd.
  destruct (validated_record_names coerce k raw record Hok)
    as [Hnames Hdup].
  apply validate_Ok_inv in Hok as [Herr ->].
  destruct (validate_field coerce raw fd) as [e|[f v']] eqn:Hv.
  { assert (e ∈ errors_of coerce k raw) as He
      by (apply elem_of_errors_of; eauto).
    rewrite Herr in He. by apply elem_of_nil in He. }
  assert (f = fname fd) as -> by (by apply (validate_field_name coerce raw fd _ Hv)).
  assert ((list_to_map (values_of coerce k raw) : gmap string value) !! fname fd
            = Some v') as Hlook.
  { apply elem_of_list_to_map_1; [exact Hdup|].
    apply elem_of_values_of. eauto. }
  assert (validate_value coerce (ftyp fd) v' = Some v') as Hconf.
  { revert Hv. unfold validate_field.
    destruct (raw !! fname fd) as [v|].
    - destruct (validate_value coerce (ftyp fd) v) as [w|] eqn:Hw; [|discriminate].
      intros [= <-]. by eapply validate_value_idempotent.
    - destruct (fdef fd) eqn:Hdef; [discriminate| |];
        intros [= <-]; apply (defaults_conform k); eauto. }
  unfold validate_field at 1. by rewrite Hlook, Hconf.
Qed.

End ValidationRoundTrip.

(** The scenario's student validates, and its record validates again to
    itself. *)
Lemma validation_is_idempotent_witness :
  validate coerce_any Student
    (list_to_map (values_of coerce_any Student ann_payload))
  = Ok (values_of coerce_any Student ann_payload).
Proof.
  apply (validation_is_idempotent coerce_any) with (raw := ann_payload).
  - intros p v v' H. unfold coerce_any in *. injection H as <-. reflexivity.
  - intros b. reflexivity.
  - vm_compute. reflexivity.
Defined.

(* ===================================================================== *)
(** * Validation: references are plain strings *)
(* ===================================================================== *)

(** Every field whose name ends in [_id] is annotated [str] or
    [Optional[str]]. *)
Lemma id_fields_are_str (k : kind) (fd : field) :
  fd ∈ fields k → ends_with "_id" (fname fd) = true → is_str_like (ftyp fd) = true.
Proof.
  intros Hfd Hname.
  assert (forallb (λ fd, implb (ends_with "_id" (fname fd))
                               (is_str_like (ftyp fd))) (fields k) = true) as Hall
    by (destruct k; vm_compute; reflexivity).
  rewrite forallb_forall in Hall.
  specialize (Hall fd (proj1 (list_elem_of_In _ _) Hfd)).
  by rewrite Hname in Hall.
Qed.

Section References.

Variable coerce : prim → value → option value.

(** X12. No reference is checked. For every entity kind and every
    field whose name ends in [_id] ([tenant_id], [class_id], [student_id],
    ...), any string is accepted: if a payload has no validation error
    elsewhere, then with any string whatever under that field it
    validates, and the record holds that very string. *)
Theorem id_field_accepts_any_string (k : kind) (raw : gmap string value)
    (fd : field) (s : string) :
  fd ∈ fields k →
  ends_with "_id" (fname fd) = true →
  (∀ e, e ∈ errors_of coerce k raw → loc e = fname fd) →
  ∃ record,
    validate coerce k (<[fname fd := VStr s]> raw) = Ok record ∧
    (fname fd, VStr s) ∈ record.
Proof.
  intros Hfd Hid Helse.
  assert (∀ fd', fd' ∈ fields k →
            validate_field coerce (<[fname fd := VStr s]> raw) fd' =
              if decide (fname fd' = fname fd) then inr (fname fd, VStr s)
              else validate_field coerce raw fd') as Hfield.
  { intros fd' Hfd'. unfold validate_field. case_decide as Hname.
    - rewrite Hname, lookup_insert_eq.
      rewrite validate_str_like; [done|].
      apply (id_fields_are_str k); [done|by rewrite Hname].
    - by rewrite lookup_insert_ne. }
  exists (values_of coerce k (<[fname fd := VStr s]> raw)). split.
  - apply validate_ok. intros fd' Hfd'. rewrite (Hfield fd' Hfd').
    case_decide as Hname; [eauto|].
    destruct (validate_field coerce raw fd') as [e|x] eqn:Hv; [|eauto].
    exfalso. apply Hname. rewrite <- (validate_field_loc _ _ _ _ Hv).
    apply Helse, elem_of_errors_of. eauto.
  - apply elem_of_values_of. exists fd. split; [done|].
    rewrite (Hfield fd Hfd). by rewrite decide_True.
Qed.

End References.

(** An enrollment in a class that does not exist is accepted. *)
Lemma id_field_accepts_any_string_witness :
  ∃ record,
    validate coerce_any Enrollment
      (<["class_id" := VStr "no such class"]> enrollment_of_nobody) = Ok record ∧
    ("class_id", VStr "no such class") ∈ record.
Proof.
  apply (id_field_accepts_any_string coerce_any Enrollment enrollment_of_nobody
           (Field "class_id" TStr Required None) "no such class").
  - unfold fields, Enrollment_fields. repeat constructor.
  - vm_compute. reflexivity.
  - intros e He. vm_compute in He. by apply elem_of_nil in He.
Defined.

(* ===================================================================== *)
(** * The list handlers and the schemas *)
(* ===================================================================== *)

(** X14. Every query parameter a list handler declares names a field
    its kind declares, so no filter names a field that documents of the
    collection cannot have. The field is annotated [str] or
    [Optional[str]], like the text the filter compares it with, in every
    case but one: [date] of [Attendance] is a [date]. *)
Theorem list_parameters_are_declared_fields (K : kind) :
  Forall (λ p, ∃ fd, fd ∈ fields K ∧ fname fd = p ∧
               (is_str_like (ftyp fd) = true ∨
                (K = Attendance ∧ p = "date" ∧ ftyp fd = TDate)))
         (list_parameters K).
Proof.
  apply Forall_forall. intros p Hp.
  assert (forallb (λ p, existsb (λ fd,
                      bool_decide (fname fd = p) &&
                      (is_str_like (ftyp fd) ||
                       (bool_decide (K = Attendance) && bool_decide (p = "date") &&
                        match ftyp fd with TDate => true | _ => false end)))
                    (fields K)) (list_parameters K) = true) as Hall
    by (destruct K; vm_compute; reflexivity).
  rewrite forallb_forall in Hall.
  specialize (Hall p (proj1 (list_elem_of_In _ _) Hp)).
  apply existsb_exists in Hall as (fd & Hfd & Hok).
  apply andb_true_iff in Hok as [Hname Hty].
  apply bool_decide_eq_true_1 in Hname.
  exists fd. split; [by apply list_elem_of_In|]. split; [exact Hname|].
  apply orb_true_iff in Hty as [Hstr|Hdate]; [by left|right].
  apply andb_true_iff in Hdate as [Hdate Hty].
  apply andb_true_iff in Hdate as [HK Hp'].
  apply bool_decide_eq_true_1 in HK. apply bool_decide_eq_true_1 in Hp'.
  split; [exact HK|]. split; [exact Hp'|]. by destruct (ftyp fd).
Qed.

(* ===================================================================== *)
(** * The gateway's reads, filter by filter *)
(* ===================================================================== *)

(** No entity kind declares a field under one of the two identifier
    names. *)
Lemma no_kind_declares_an_identifier (K : kind) :
  (public_id ∉ field_names K) ∧ (internal_id ∉ field_names K).
Proof.
  split; apply (bool_decide_eq_false_1 _); destruct K; vm_compute; reflexivity.
Qed.

(** So a document written from a validated payload has no field [id] of
    its own, whatever the payload held. *)
Lemma validated_body_has_no_identifier (coerce : prim → value → option value)
    (K : kind) (raw : gmap string value) (record : list (string * value)) :
  validate coerce K raw = Ok record →
  (list_to_map record : gmap string value) !! public_id = None ∧
  (list_to_map record : gmap string value) !! internal_id = None.
Proof.
  intros [Hnames _]%validated_record_names.
  destruct (no_kind_declares_an_identifier K) as [Hpub Hint].
  split; apply not_elem_of_list_to_map; by rewrite Hnames.
Qed.

(** C1. With the store reachable, [get_documents] returns. For a filter
    that maps field names to scalar values, over a collection whose
    documents have no field [id] of their own (as every document written
    from a validated payload is), every returned record holds the filter's
    value under every key of the filter; every document of the collection
    that holds the filter's values is returned; and with the empty filter
    the records are those of all the documents of the collection. *)
Theorem get_documents_exact_match (d : store_handle) (C : string)
    (F : gmap string value) :
  db_fault d = None →
  ∃ records,
    get_documents (Some d) C F = Ok records ∧
    ((∀ k v, F !! k = Some v → is_scalar v = true) →
     (∀ doc, doc ∈ default [] (db_collections d !! C) →
        doc_body doc !! public_id = None) →
     ∀ r k v, r ∈ records → F !! k = Some v → r !! k = Some v) ∧
    (∀ doc, doc ∈ default [] (db_collections d !! C) →
       (∀ k v, F !! k = Some v → stored doc !! k = Some v) →
       public_record doc ∈ records) ∧
    (F = ∅ → records = public_record <$> default [] (db_collections d !! C)).
Proof.
  intros Hfault.
  destruct (get_documents_matching d C F Hfault)
    as (records & Hget & Hchar & Hother & Hempty).
  exists records. split; [exact Hget|]. split; [|split; [|exact Hempty]].
  - intros Hscalar Hnoid r k v Hr Hkv.
    destruct (decide (k = internal_id)) as [->|Hint].
    { apply Hchar in Hr as (doc & _ & _ & Hm).
      specialize (Hm _ _ Hkv). specialize (Hscalar _ _ Hkv).
      unfold stored in Hm. rewrite lookup_insert_eq in Hm.
      injection Hm as <-. discriminate Hscalar. }
    destruct (decide (k = public_id)) as [->|Hpub]; [|by eapply Hother].
    apply Hchar in Hr as (doc & Hdoc & _ & Hm).
    specialize (Hm _ _ Hkv). unfold stored in Hm.
    rewrite lookup_insert_ne in Hm by done.
    rewrite (Hnoid doc Hdoc) in Hm. discriminate Hm.
  - intros doc Hdoc Hm. apply Hchar. eauto.
Qed.

(** [GET /students?tenant_id=t1&grade_level=5] on the store that holds
    the scenario's student: the call returns her record, which holds both
    values asked for. *)
Lemma get_documents_exact_match_witness :
  ∃ records,
    run_list (Some enrolled) (list_students (Some "t1") (Some "5")) = Ok records ∧
    public_record ann_stored ∈ records ∧
    (∀ r, r ∈ records →
       r !! "tenant_id" = Some (VStr "t1") ∧ r !! "grade_level" = Some (VStr "5")).
Proof.
  destruct (get_documents_exact_match enrolled "student"
              (call_filter (list_students (Some "t1") (Some "5"))) eq_refl)
    as (records & Hget & Hexact & Hall & _).
  assert (∀ k v, call_filter (list_students (Some "t1") (Some "5")) !! k = Some v →
                 is_scalar v = true) as Hscalar.
  { intros k v. cbn [list_students call_filter set_if truthy].
    intros [[_ <-]|[_ [[_ <-]|[_ Hv]]%lookup_insert_Some]]%lookup_insert_Some;
      [reflexivity|reflexivity|].
    rewrite lookup_empty in Hv. discriminate Hv. }
  assert (∀ doc, doc ∈ default [] (db_collections enrolled !! "student") →
                 doc_body doc !! public_id = None) as Hnoid.
  { intros doc Hdoc. unfold enrolled in Hdoc. cbn [db_collections] in Hdoc.
    rewrite lookup_insert_eq in Hdoc. simpl in Hdoc.
    apply list_elem_of_singleton in Hdoc as ->.
    refine (proj1 (validated_body_has_no_identifier coerce_any Student ann_payload
                     (values_of coerce_any Student ann_payload) _)).
    vm_compute. reflexivity. }
  exists records. split; [exact Hget|]. split.
  - apply Hall.
    + vm_compute. left.
    + intros k v. cbn [list_students call_filter set_if truthy].
      intros [[<- <-]|[_ [[<- <-]|[_ Hv]]%lookup_insert_Some]]%lookup_insert_Some;
        [vm_compute; reflexivity|vm_compute; reflexivity|].
      rewrite lookup_empty in Hv. discriminate Hv.
  - intros r Hr. split; apply (Hexact Hscalar Hnoid r _ _ Hr); vm_compute; reflexivity.
Defined.
